(** * DarkRP job generator (jobgeneratordarkrp.py): a shallow embedding

    The script is a single class [DarkRPJobGenerator] whose methods read lines
    from standard input, print to standard output, call [datetime.now()] and
    write a Lua file.  We model the process environment as an explicit
    [world] record and every method as a state-and-exception computation over
    it.  Text is modelled as ASCII [string]s. *)

From Stdlib Require Import String Ascii List ZArith Bool Lia.
Import ListNotations.

Local Open Scope string_scope.
Local Open Scope Z_scope.

(* ------------------------------------------------------------------ *)
(** ** Python string helpers *)

Definition chr (n : nat) : ascii := ascii_of_nat n.
Definition str1 (c : ascii) : string := String c EmptyString.

(** The double quote and the newline, used by the templates. *)
Definition dq : string := str1 (chr 34).
Definition nl : string := str1 (chr 10).

(** [str.isspace] on the ASCII range: \t \n \v \f \r, \x1c-\x1f and space. *)
Definition is_space (c : ascii) : bool :=
  let n := nat_of_ascii c in
  ((9 <=? n) && (n <=? 13))%nat || ((28 <=? n) && (n <=? 32))%nat.

Fixpoint lstrip (s : string) : string :=
  match s with
  | EmptyString => EmptyString
  | String c s' => if is_space c then lstrip s' else s
  end.

Fixpoint rstrip (s : string) : string :=
  match s with
  | EmptyString => EmptyString
  | String c s' =>
      match rstrip s' with
      | EmptyString => if is_space c then EmptyString else str1 c
      | r => String c r
      end
  end.

(** No character of [s] is whitespace. *)
Fixpoint no_space (s : string) : bool :=
  match s with
  | EmptyString => true
  | String c s' => negb (is_space c) && no_space s'
  end.

(** [str.strip()] *)
Definition strip (s : string) : string := rstrip (lstrip s).

Definition lower_char (c : ascii) : ascii :=
  let n := nat_of_ascii c in
  if ((65 <=? n) && (n <=? 90))%nat then ascii_of_nat (n + 32) else c.

Definition upper_char (c : ascii) : ascii :=
  let n := nat_of_ascii c in
  if ((97 <=? n) && (n <=? 122))%nat then ascii_of_nat (n - 32) else c.

Fixpoint map_chars (f : ascii -> ascii) (s : string) : string :=
  match s with
  | EmptyString => EmptyString
  | String c s' => String (f c) (map_chars f s')
  end.

(** [str.lower()] and [str.upper()] *)
Definition lower (s : string) : string := map_chars lower_char s.
Definition upper (s : string) : string := map_chars upper_char s.

(** [s.replace(c, r)] for a one-character pattern [c]. *)
Fixpoint replace_char (c : ascii) (r : string) (s : string) : string :=
  match s with
  | EmptyString => EmptyString
  | String c' s' =>
      if Ascii.eqb c' c then r ++ replace_char c r s'
      else String c' (replace_char c r s')
  end.

(** [sep.join(xs)] *)
Fixpoint join (sep : string) (xs : list string) : string :=
  match xs with
  | [] => EmptyString
  | [x] => x
  | x :: xs' => x ++ sep ++ join sep xs'
  end.

(** Truthiness of a string, and of [str | None]. *)
Definition is_empty (s : string) : bool :=
  match s with EmptyString => true | _ => false end.

Definition truthy (v : option string) : bool :=
  match v with None => false | Some s => negb (is_empty s) end.

(** f-string formatting of [str | None] ([None] prints as "None"). *)
Definition fmt_opt (v : option string) : string :=
  match v with None => "None" | Some s => s end.

(* ------------------------------------------------------------------ *)
(** ** [str(int)] and [int(str)] *)

Definition digit_char (d : Z) : ascii := ascii_of_nat (48 + Z.to_nat d).

Fixpoint show_N_aux (fuel : nat) (n : Z) (acc : string) : string :=
  match fuel with
  | O => acc
  | S f =>
      let acc' := String (digit_char (n mod 10)) acc in
      if n <? 10 then acc' else show_N_aux f (n / 10) acc'
  end.

(** Decimal digits of a non-negative integer; the fuel [n + 1] bounds the
    number of divisions by 10. *)
Definition show_nonneg (n : Z) : string :=
  show_N_aux (S (Z.to_nat n)) n EmptyString.

(** [str(z)] for an [int]. *)
Definition py_str_int (z : Z) : string :=
  if z <? 0 then String "-" (show_nonneg (- z)) else show_nonneg z.

Definition digit_val (c : ascii) : option Z :=
  let n := nat_of_ascii c in
  if ((48 <=? n) && (n <=? 57))%nat then Some (Z.of_nat n - 48) else None.

(** Digits with single underscores between them, then optional trailing
    whitespace: [digit ('_'? digit)* space*].  [prev] says whether the last
    character read was a digit. *)
Fixpoint trailing_space (s : string) : bool :=
  match s with
  | EmptyString => true
  | String c s' => is_space c && trailing_space s'
  end.

Fixpoint digits_val (acc : Z) (prev : bool) (s : string) : option Z :=
  match s with
  | EmptyString => if prev then Some acc else None
  | String c s' =>
      match digit_val c with
      | Some d => digits_val (acc * 10 + d) true s'
      | None =>
          if prev && Ascii.eqb c "_" then digits_val acc false s'
          else if prev && is_space c && trailing_space s' then Some acc
          else None
      end
  end.

(** [int(s)] on a string: leading whitespace, an optional sign, then the
    digits; [None] is the [ValueError]. *)
Definition py_int (s : string) : option Z :=
  match lstrip s with
  | String c r =>
      if Ascii.eqb c "-" then option_map Z.opp (digits_val 0 false r)
      else if Ascii.eqb c "+" then digits_val 0 false r
      else digits_val 0 false (String c r)
  | EmptyString => None
  end.

(* ------------------------------------------------------------------ *)
(** ** The process environment and the method monad *)

(** A [datetime] as returned by [datetime.now()]. *)
Record datetime := mkdt {
  year : Z; month : Z; day : Z; hour : Z; minute : Z; second : Z }.

(** A job record as stored in [self.jobs]. *)
Record job := mkjob { team_name : string; job_name : string; code : string }.

(** [stdin]: the lines not yet read; [stdout]: the lines printed so far;
    [fs]: the file system; [clock]/[ticks]: the successive answers of
    [datetime.now()]; [jobs]: the attribute [self.jobs]. *)
Record world := mkworld {
  stdin : list string;
  stdout : list string;
  fs : string -> option string;
  clock : nat -> datetime;
  ticks : nat;
  jobs : list job }.

Definition set_stdin (l : list string) (w : world) : world :=
  mkworld l (stdout w) (fs w) (clock w) (ticks w) (jobs w).
Definition set_stdout (l : list string) (w : world) : world :=
  mkworld (stdin w) l (fs w) (clock w) (ticks w) (jobs w).
Definition set_fs (f : string -> option string) (w : world) : world :=
  mkworld (stdin w) (stdout w) f (clock w) (ticks w) (jobs w).
Definition set_ticks (t : nat) (w : world) : world :=
  mkworld (stdin w) (stdout w) (fs w) (clock w) t (jobs w).
Definition set_jobs (js : list job) (w : world) : world :=
  mkworld (stdin w) (stdout w) (fs w) (clock w) (ticks w) js.

(** The Python exceptions the script can raise. *)
Inductive pyexn := EOFError | ValueError | TypeError | AttributeError.

Inductive outcome (A : Type) := Ret (a : A) | Raise (e : pyexn).
Arguments Ret {A} a.
Arguments Raise {A} e.

Definition M (A : Type) : Type := world -> outcome A * world.

Definition ret {A} (a : A) : M A := fun w => (Ret a, w).
Definition raise {A} (e : pyexn) : M A := fun w => (Raise e, w).
Definition bind {A B} (m : M A) (k : A -> M B) : M B :=
  fun w => match m w with
           | (Ret a, w') => k a w'
           | (Raise e, w') => (Raise e, w')
           end.

Notation "x <- m ;; k" := (bind m (fun x => k))
  (at level 61, m at next level, right associativity).
Notation "m ;; k" := (bind m (fun _ => k))
  (at level 61, right associativity).

(** [input()]: one line of standard input, [EOFError] at its end. *)
Definition input : M string :=
  fun w => match stdin w with
           | [] => (Raise EOFError, w)
           | l :: rest => (Ret l, set_stdin rest w)
           end.

(** [print(s)] *)
Definition print (s : string) : M unit :=
  fun w => (Ret tt, set_stdout (stdout w ++ [s])%list w).

(** [datetime.now()] *)
Definition now : M datetime :=
  fun w => (Ret (clock w (ticks w)), set_ticks (S (ticks w)) w).

(** [open(name, 'w')] creates or truncates the file, [f.write(s)] appends. *)
Definition fs_update (name : string) (c : string) (f : string -> option string)
  : string -> option string :=
  fun n => if String.eqb n name then Some c else f n.

Definition open_w (name : string) : M unit :=
  fun w => (Ret tt, set_fs (fs_update name EmptyString (fs w)) w).

Definition fwrite (name : string) (s : string) : M unit :=
  fun w => (Ret tt, set_fs (fs_update name
                              (match fs w name with
                               | Some c => c | None => EmptyString end ++ s)
                              (fs w)) w).

Definition get_jobs : M (list job) := fun w => (Ret (jobs w), w).
Definition append_job (j : job) : M unit :=
  fun w => (Ret tt, set_jobs (jobs w ++ [j])%list w).

(** [int(v)] on a value of type [str | None]. *)
Definition int_m (v : option string) : M Z :=
  match v with
  | None => raise TypeError
  | Some s => match py_int s with Some z => ret z | None => raise ValueError end
  end.

(** [v.lower()], [v.upper()] and [v.replace(c, r)] on [str | None]. *)
Definition lower_m (v : option string) : M string :=
  match v with None => raise AttributeError | Some s => ret (lower s) end.
Definition upper_m (v : option string) : M string :=
  match v with None => raise AttributeError | Some s => ret (upper s) end.
Definition replace_m (c : ascii) (r : string) (v : option string) : M string :=
  match v with None => raise AttributeError | Some s => ret (replace_char c r s) end.

(** [for x in xs: body(x)] *)
Fixpoint for_each {A} (xs : list A) (body : A -> M unit) : M unit :=
  match xs with
  | [] => ret tt
  | x :: xs' => body x ;; for_each xs' body
  end.

(** [while True]: the body either continues with a new loop state ([inl])
    or leaves the loop with a result ([inr]).  Every loop of the script
    starts its body with [input()], so once standard input is exhausted the
    next iteration raises [EOFError]; [length stdin + 1] iterations therefore
    cover every run, and running out of them is that same [EOFError]. *)
Fixpoint loop_fuel {T A} (fuel : nat) (body : T -> M (T + A)) (s : T) : M A :=
  match fuel with
  | O => raise EOFError
  | S f =>
      fun w => match body s w with
               | (Ret (inl s'), w') => loop_fuel f body s' w'
               | (Ret (inr a), w') => (Ret a, w')
               | (Raise e, w') => (Raise e, w')
               end
  end.

Definition while_true {T A} (body : T -> M (T + A)) (s : T) : M A :=
  fun w => loop_fuel (S (length (stdin w))) body s w.

(* ------------------------------------------------------------------ *)
(** ** Input collection *)

(** [x is not None] *)
Definition is_some {A} (x : option A) : bool :=
  match x with Some _ => true | None => false end.

(** One iteration of the [while True] loop of
    [get_user_input(prompt, default=None, required=True)]. *)
Definition get_user_input_body (default : option string) (required : bool)
  (_ : unit) : M (unit + option string) :=
  raw <- input ;;
  let user_input := strip raw in
  if is_empty user_input && is_some default then ret (inr default)
  else if negb (is_empty user_input) || negb required then
    ret (inr (if is_empty user_input then None else Some user_input))
  else print "This field is required!" ;; ret (inl tt).

(** [get_user_input(prompt, default, required)].  The echo of the prompt by
    [input(...)] is not modelled. *)
Definition get_user_input (prompt : string) (default : option string)
  (required : bool) : M (option string) :=
  while_true (get_user_input_body default required) tt.

(** One iteration of the loop of [get_validated_int]; the [try] catches
    [ValueError] only. *)
Definition get_validated_int_body (prompt : string) (min_val max_val : Z)
  (default : option string) (_ : unit) : M (unit + Z) :=
  value <- get_user_input prompt default true ;;
  match value with
  | None => raise TypeError
  | Some s =>
      match py_int s with
      | Some value_int =>
          if (min_val <=? value_int) && (value_int <=? max_val)
          then ret (inr value_int)
          else print ("Value must be between " ++ py_str_int min_val ++
                      " and " ++ py_str_int max_val ++ "!") ;; ret (inl tt)
      | None => print "Invalid input, please enter a number!" ;; ret (inl tt)
      end
  end.

(** [get_validated_int(prompt, min_val, max_val, default)] *)
Definition get_validated_int (prompt : string) (min_val max_val : Z)
  (default : option string) : M Z :=
  while_true (get_validated_int_body prompt min_val max_val default) tt.

Fixpoint repeat_char (n : nat) (c : ascii) : string :=
  match n with O => EmptyString | S k => String c (repeat_char k c) end.

(** ["="*50] *)
Definition rule : string := repeat_char 50 "=".

(** [get_color_input()] *)
Definition get_color_input : M string :=
  print (nl ++ "--- Color Settings ---") ;;
  r <- get_validated_int "Red (0-255)" 0 255 (Some "50") ;;
  g <- get_validated_int "Green (0-255)" 0 255 (Some "50") ;;
  b <- get_validated_int "Blue (0-255)" 0 255 (Some "255") ;;
  a <- get_validated_int "Alpha (0-255)" 0 255 (Some "255") ;;
  ret ("Color(" ++ py_str_int r ++ ", " ++ py_str_int g ++ ", " ++
       py_str_int b ++ ", " ++ py_str_int a ++ ")").

(** One iteration of the [while True] loop of [get_models_input] and of
    [get_weapons_input], which is the same code with other prompts and
    another default entry; [items] is the list [models] (or [weapons]). *)
Definition collect_body (entry_prompt again_prompt default_entry : string)
  (items : list string) : M (list string + list string) :=
  item <- get_user_input entry_prompt None false ;;
  if negb (truthy item) then
    ret (inr (match items with
              | [] => app items [dq ++ default_entry ++ dq]
              | _ => items
              end))
  else
    let items' := app items [dq ++ fmt_opt item ++ dq] in
    again <- get_user_input again_prompt (Some "n") true ;;
    a <- lower_m again ;;
    if negb (String.eqb a "y") then ret (inr items') else ret (inl items').

Definition models_loop : list string -> M (list string) :=
  while_true (collect_body "Model path (e.g., models/player/urban.mdl)"
                "Add another model? (y/n)" "models/player/urban.mdl").

Definition weapons_loop : list string -> M (list string) :=
  while_true (collect_body "Weapon class (e.g., weapon_pistol)"
                "Add another weapon? (y/n)" "weapon_pistol").

(** [get_models_input()] *)
Definition get_models_input : M string :=
  print (nl ++ "--- Player Models ---") ;;
  models <- models_loop [] ;;
  match models with
  | [m] => ret m
  | _ => ret ("{" ++ join ", " models ++ "}")
  end.

(** [get_weapons_input()] *)
Definition get_weapons_input : M string :=
  print (nl ++ "--- Weapons ---") ;;
  weapons <- weapons_loop [] ;;
  ret ("{" ++ join ", " weapons ++ "}").

(** The dictionary [settings] built by [get_spawn_settings]. *)
Record spawn_settings := mkspawn {
  health : Z; max_health : Z; armor : Z; max_armor : Z;
  walk_speed : Z; run_speed : Z; jump_power : Z }.

(** [get_spawn_settings()] *)
Definition get_spawn_settings : M spawn_settings :=
  print (nl ++ "--- Spawn Settings ---") ;;
  h <- get_user_input "Health" (Some "100") true ;; health <- int_m h ;;
  mh <- get_user_input "Max Health" (Some (py_str_int health)) true ;;
  max_health <- int_m mh ;;
  a <- get_user_input "Armor" (Some "0") true ;; armor <- int_m a ;;
  max_armor_input <- get_user_input "Max Armor (leave empty to match Armor)"
                       (Some (py_str_int armor)) true ;;
  max_armor <- (if truthy max_armor_input then int_m max_armor_input
                else ret armor) ;;
  ws <- get_user_input "Walk Speed" (Some "200") true ;; walk_speed <- int_m ws ;;
  rs <- get_user_input "Run Speed" (Some "400") true ;; run_speed <- int_m rs ;;
  jp <- get_user_input "Jump Power" (Some "200") true ;; jump_power <- int_m jp ;;
  ret (mkspawn health max_health armor max_armor walk_speed run_speed jump_power).

(* ------------------------------------------------------------------ *)
(** ** Rendering and the job session *)

(** [str(b)] for a [bool]. *)
Definition py_str_bool (b : bool) : string := if b then "True" else "False".

(** The f-string [job_template] of [create_job], with every placeholder as a
    parameter; lines are joined by newlines and the block has no final
    newline. *)
Definition job_template (team_name job_name color models description weapons
  command : string) (max_players salary : Z)
  (vote_required has_license can_demote : bool) (sp : spawn_settings)
  : string :=
  team_name ++ " = DarkRP.createJob(" ++ dq ++ job_name ++ dq ++ ", {" ++ nl ++
  "    color = " ++ color ++ "," ++ nl ++
  "    model = " ++ models ++ "," ++ nl ++
  "    description = [[" ++ description ++ "]]," ++ nl ++
  "    weapons = " ++ weapons ++ "," ++ nl ++
  "    command = " ++ dq ++ command ++ dq ++ "," ++ nl ++
  "    max = " ++ py_str_int max_players ++ "," ++ nl ++
  "    salary = " ++ py_str_int salary ++ "," ++ nl ++
  "    admin = 0," ++ nl ++
  "    vote = " ++ lower (py_str_bool vote_required) ++ "," ++ nl ++
  "    hasLicense = " ++ lower (py_str_bool has_license) ++ "," ++ nl ++
  "    candemote = " ++ lower (py_str_bool can_demote) ++ "," ++ nl ++
  nl ++
  "    PlayerSpawn = function(ply)" ++ nl ++
  "        ply:SetHealth(" ++ py_str_int (health sp) ++ ")" ++ nl ++
  "        ply:SetMaxHealth(" ++ py_str_int (max_health sp) ++ ")" ++ nl ++
  "        ply:SetArmor(" ++ py_str_int (armor sp) ++ ")" ++ nl ++
  "        ply:SetMaxArmor(" ++ py_str_int (max_armor sp) ++ ")" ++ nl ++
  "        ply:SetWalkSpeed(" ++ py_str_int (walk_speed sp) ++ ")" ++ nl ++
  "        ply:SetRunSpeed(" ++ py_str_int (run_speed sp) ++ ")" ++ nl ++
  "        ply:SetJumpPower(" ++ py_str_int (jump_power sp) ++ ")" ++ nl ++
  "    end" ++ nl ++
  "})".

(** The two characters of the Python literal ['\\n']. *)
Definition backslash_n : string := String (chr 92) "n".

(** [create_job()] *)
Definition create_job : M string :=
  print (nl ++ rule) ;; print "NEW DARKRP JOB" ;; print rule ;;
  tn <- get_user_input "Team Name (e.g., TEAM_SUPER)" (Some "TEAM_CUSTOM") true ;;
  team_name <- upper_m tn ;;
  job_name <- get_user_input "Job Name (e.g., Super Soldier)" (Some "Custom Job") true ;;
  color <- get_color_input ;;
  d <- get_user_input "Description" (Some "A custom DarkRP job") true ;;
  description <- replace_m (chr 10) backslash_n d ;;
  models <- get_models_input ;;
  weapons <- get_weapons_input ;;
  jl <- lower_m job_name ;;
  command <- get_user_input "Chat command" (Some (replace_char " " EmptyString jl)) true ;;
  mp <- get_user_input "Max Players" (Some "2") true ;; max_players <- int_m mp ;;
  sa <- get_user_input "Salary" (Some "50") true ;; salary <- int_m sa ;;
  hl <- get_user_input "Has license? (y/n)" (Some "y") true ;; hl' <- lower_m hl ;;
  let has_license := String.eqb hl' "y" in
  vr <- get_user_input "Vote required? (y/n)" (Some "n") true ;; vr' <- lower_m vr ;;
  let vote_required := String.eqb vr' "y" in
  cd <- get_user_input "Can be demoted? (y/n)" (Some "n") true ;; cd' <- lower_m cd ;;
  let can_demote := String.eqb cd' "y" in
  spawn <- get_spawn_settings ;;
  let code := job_template team_name (fmt_opt job_name) color models description
                weapons (fmt_opt command) max_players salary vote_required
                has_license can_demote spawn in
  append_job (mkjob team_name (fmt_opt job_name) code) ;;
  ret code.

(** [strftime] renders each field zero-padded to its width (a [datetime]
    keeps every field below that width). *)
Fixpoint dec_width (w : nat) (n : Z) : string :=
  match w with
  | O => EmptyString
  | S w' => dec_width w' (n / 10) ++ str1 (digit_char (n mod 10))
  end.

(** [strftime('%Y%m%d_%H%M%S')] *)
Definition strftime_compact (t : datetime) : string :=
  dec_width 4 (year t) ++ dec_width 2 (month t) ++ dec_width 2 (day t) ++ "_" ++
  dec_width 2 (hour t) ++ dec_width 2 (minute t) ++ dec_width 2 (second t).

(** [strftime('%d.%m.%Y %H:%M:%S')] *)
Definition strftime_readable (t : datetime) : string :=
  dec_width 2 (day t) ++ "." ++ dec_width 2 (month t) ++ "." ++
  dec_width 4 (year t) ++ " " ++ dec_width 2 (hour t) ++ ":" ++
  dec_width 2 (minute t) ++ ":" ++ dec_width 2 (second t).

(** The UTF-8 bytes of the check mark printed by [save_jobs]. *)
Definition check_mark : string :=
  String (chr 226) (String (chr 156) (str1 (chr 133))).

(** [save_jobs()] *)
Definition save_jobs : M unit :=
  js <- get_jobs ;;
  match js with
  | [] => print "No jobs to save!"
  | _ :: _ =>
      t <- now ;;
      let filename := "darkrp_jobs_" ++ strftime_compact t ++ ".lua" in
      open_w filename ;;
      fwrite filename ("-- DarkRP Jobs generated with Python Script" ++ nl) ;;
      t' <- now ;;
      fwrite filename ("-- Created on: " ++ strftime_readable t' ++ nl ++ nl) ;;
      for_each js (fun j => fwrite filename (code j) ;; fwrite filename (nl ++ nl)) ;;
      print (nl ++ check_mark ++ " Jobs saved to: " ++ filename)
  end.

(** [choice == s] for the [str | None] answer of [get_user_input]. *)
Definition opt_eqb (v : option string) (s : string) : bool :=
  match v with Some x => String.eqb x s | None => false end.

(** [enumerate(xs, i)] *)
Fixpoint enumerate {A} (i : Z) (xs : list A) : list (Z * A) :=
  match xs with
  | [] => []
  | x :: xs' => (i, x) :: enumerate (i + 1) xs'
  end.

(** One iteration of the [while True] loop of [show_menu()]: [inr] is the
    [break] of option 4. *)
Definition show_menu_body (_ : unit) : M (unit + unit) :=
  print (nl ++ rule) ;; print "DARKRP JOB GENERATOR" ;; print rule ;;
  print "1. Create a new job" ;; print "2. Show all jobs" ;;
  print "3. Save jobs" ;; print "4. Exit" ;; print rule ;;
  choice <- get_user_input "Choose an option" (Some "1") true ;;
  if opt_eqb choice "1" then
    job_code <- create_job ;;
    print (nl ++ rule) ;; print "GENERATED CODE:" ;; print rule ;;
    print job_code ;; ret (inl tt)
  else if opt_eqb choice "2" then
    js <- get_jobs ;;
    match js with
    | [] => print "No jobs created!" ;; ret (inl tt)
    | _ :: _ =>
        print (nl ++ rule) ;; print "CREATED JOBS:" ;; print rule ;;
        for_each (enumerate 1 js)
          (fun '(i, job) => print (py_str_int i ++ ". " ++ team_name job ++
                                   " - " ++ job_name job)) ;;
        ret (inl tt)
    end
  else if opt_eqb choice "3" then
    save_jobs ;; ret (inl tt)
  else if opt_eqb choice "4" then
    js <- get_jobs ;;
    (match js with
     | [] => ret tt
     | _ :: _ =>
         ans <- get_user_input "Save jobs before exiting? (y/n)" (Some "y") true ;;
         a <- lower_m ans ;;
         if String.eqb a "y" then save_jobs else ret tt
     end) ;;
    print "Goodbye!" ;; ret (inr tt)
  else print "Invalid input!" ;; ret (inl tt).

(** [show_menu()] *)
Definition show_menu : M unit := while_true show_menu_body tt.

(** The UTF-8 bytes of the game controller printed by [main]. *)
Definition game_pad : string :=
  String (chr 240) (String (chr 159) (String (chr 142) (str1 (chr 174)))).

(** [main()], run on the generator [DarkRPJobGenerator()] held by the
    world's [jobs]. *)
Definition main : M unit :=
  print (game_pad ++ " DarkRP Job Generator for Garry's Mod") ;;
  print "Easily create custom DarkRP jobs with this tool!" ;;
  a <- get_user_input "Do you want to create a job now? (y/n)" (Some "y") true ;;
  a' <- lower_m a ;;
  if String.eqb a' "y" then
    job_code <- create_job ;;
    print (nl ++ rule) ;; print "GENERATED CODE:" ;; print rule ;;
    print job_code ;;
    s <- get_user_input "Save the job? (y/n)" (Some "y") true ;;
    s' <- lower_m s ;;
    if String.eqb s' "y" then save_jobs else show_menu
  else show_menu.

(** A fresh run: [DarkRPJobGenerator()] (so [self.jobs = []]) with the
    given standard input and clock, nothing printed and no files. *)
Definition start_world (input_lines : list string) (clk : nat -> datetime) : world :=
  mkworld input_lines [] (fun _ => None) clk 0 [].

(** A clock that stays on 19.10.2026 09:05:07. *)
Definition fixed_clock : nat -> datetime := fun _ => mkdt 2026 10 19 9 5 7.

(** An empty line of input (the user just presses Enter). *)
Definition blank : string := EmptyString.

(** The quoted form [f'"{x}"'] under which the collectors store entries. *)
Definition quote (x : string) : string := dq ++ x ++ dq.

(** A scripted session of the collection loop: each entry followed by the
    answer [y] to "Add another ...?", then a blank entry. *)
Definition entries_script (ps : list string) : list string :=
  app (flat_map (fun p => [p; "y"]) ps) [blank].

(** An entry as it is typed: non-blank and without surrounding whitespace. *)
Definition entry_ok (p : string) : Prop :=
  is_empty (strip p) = false /\ strip p = p.

(** The answers [create_job] reads before "Max Players": team and job
    name, then defaults for the four colour channels, the description,
    the chat command, and no model and no weapon. *)
Definition max_players_prefix : list string :=
  ["TEAM_TEST"; "Tester"; blank; blank; blank; blank; blank; blank; blank; blank].

(** The end-to-end session of the spec: team [TEAM_TEST], job [Tester],
    default colour and description, one model, one weapon, default command,
    max players 2, salary 50, licence yes, vote no, demote no, and the
    default spawn values. *)
Definition tester_input : list string :=
  ["TEAM_TEST"; "Tester";
   blank; blank; blank; blank;
   blank;
   "models/player/urban.mdl"; "n";
   "weapon_pistol"; "n";
   blank; "2"; "50"; "y"; "n"; "n";
   blank; blank; blank; blank; blank; blank; blank].

(** The block expected for [tester_input], line by line. *)
Definition tester_block : string :=
  join nl
    ["TEAM_TEST = DarkRP.createJob(" ++ dq ++ "Tester" ++ dq ++ ", {";
     "    color = Color(50, 50, 255, 255),";
     "    model = " ++ dq ++ "models/player/urban.mdl" ++ dq ++ ",";
     "    description = [[A custom DarkRP job]],";
     "    weapons = {" ++ dq ++ "weapon_pistol" ++ dq ++ "},";
     "    command = " ++ dq ++ "tester" ++ dq ++ ",";
     "    max = 2,";
     "    salary = 50,";
     "    admin = 0,";
     "    vote = false,";
     "    hasLicense = true,";
     "    candemote = false,";
     blank;
     "    PlayerSpawn = function(ply)";
     "        ply:SetHealth(100)";
     "        ply:SetMaxHealth(100)";
     "        ply:SetArmor(0)";
     "        ply:SetMaxArmor(0)";
     "        ply:SetWalkSpeed(200)";
     "        ply:SetRunSpeed(400)";
     "        ply:SetJumpPower(200)";
     "    end";
     "})"].

(** What [save_jobs] is expected to write: the records' code, each followed
    by a blank line, in session order ... *)
Definition body_text (js : list job) : string :=
  fold_right (fun j acc => code j ++ nl ++ nl ++ acc) EmptyString js.

(** ... after a two-line header and an empty line ... *)
Definition saved_header (t : datetime) : string :=
  "-- DarkRP Jobs generated with Python Script" ++ nl ++
  "-- Created on: " ++ dec_width 2 (day t) ++ "." ++ dec_width 2 (month t) ++
  "." ++ dec_width 4 (year t) ++ " " ++ dec_width 2 (hour t) ++ ":" ++
  dec_width 2 (minute t) ++ ":" ++ dec_width 2 (second t) ++ nl ++ nl.

(** ... in the file darkrp_jobs_<YYYYMMDD>_<HHMMSS>.lua, the two fields being
    the 8- and 6-digit decimal numbers YYYYMMDD and HHMMSS. *)
Definition saved_file_name (t : datetime) : string :=
  "darkrp_jobs_" ++ dec_width 8 (year t * 10000 + month t * 100 + day t) ++
  "_" ++ dec_width 6 (hour t * 10000 + minute t * 100 + second t) ++ ".lua".

(** The ranges of the fields of a Python [datetime]. *)
Definition valid_datetime (t : datetime) : Prop :=
  1 <= year t <= 9999 /\ 1 <= month t <= 12 /\ 1 <= day t <= 31 /\
  0 <= hour t <= 23 /\ 0 <= minute t <= 59 /\ 0 <= second t <= 59.

(** A session holding one record, with the clock stopped on one second. *)
Definition one_job_world : world :=
  mkworld [] [] (fun _ => None) fixed_clock 0 [mkjob "TEAM_A" "A" "a"].

(** The file [save_jobs] names after the clock reading [t]. *)
Definition save_target (t : datetime) : string :=
  "darkrp_jobs_" ++ strftime_compact t ++ ".lua".

(** The two lines [main] prints before its first question. *)
Definition main_banner : list string :=
  [game_pad ++ " DarkRP Job Generator for Garry's Mod";
   "Easily create custom DarkRP jobs with this tool!"].

(** The lines one round of [show_menu] prints before reading the choice. *)
Definition menu_lines : list string :=
  [nl ++ rule; "DARKRP JOB GENERATOR"; rule; "1. Create a new job";
   "2. Show all jobs"; "3. Save jobs"; "4. Exit"; rule].

(** The lines "i. TEAM - Name", numbered from [i]. *)
Fixpoint numbered (i : Z) (js : list job) : list string :=
  match js with
  | [] => []
  | j :: js' => (py_str_int i ++ ". " ++ team_name j ++ " - " ++ job_name j)
                :: numbered (i + 1) js'
  end.

(** What option 2 of the menu prints for the session [js]. *)
Definition job_listing (js : list job) : list string :=
  match js with
  | [] => ["No jobs created!"]
  | _ :: _ => app [nl ++ rule; "CREATED JOBS:"; rule] (numbered 1 js)
  end.

(** A relation [R] between the world before and after a computation holds
    on every run of [m], whatever its outcome. *)
Definition preserves (R : world -> world -> Prop) {A} (m : M A) : Prop :=
  forall w r w', m w = (r, w') -> R w w'.

(** Relations that compose along a run. *)
Class WorldPreorder (R : world -> world -> Prop) := {
  wp_refl : forall w, R w w;
  wp_trans : forall w1 w2 w3, R w1 w2 -> R w2 w3 -> R w1 w3 }.

(** Relations that reading a line and printing keep. *)
Class ReadPrint (R : world -> world -> Prop) := {
  rp_input : preserves R input;
  rp_print : forall s, preserves R (print s) }.

(** Standard input is only consumed. *)
Definition stdin_le (w w' : world) : Prop :=
  (length (stdin w') <= length (stdin w))%nat.

(** Standard input is only consumed from its front: what is left is a
    suffix of what there was. *)
Definition stdin_suffix (w w' : world) : Prop :=
  exists pre, stdin w = (pre ++ stdin w')%list.

(** Standard input is untouched. *)
Definition same_stdin (w w' : world) : Prop := stdin w' = stdin w.

(** [self.jobs] is unchanged. *)
Definition same_jobs (w w' : world) : Prop := jobs w' = jobs w.

(** [self.jobs] only grows at its end. *)
Definition jobs_grow (w w' : world) : Prop := exists l, jobs w' = (jobs w ++ l)%list.

(** Every file whose content changed is a [darkrp_jobs_<...>.lua] file. *)
Definition writes_saves (w w' : world) : Prop :=
  forall n, fs w' n <> fs w n -> exists t, n = save_target t.

Definition evolves (w w' : world) : Prop :=
  stdin_suffix w w' /\ jobs_grow w w' /\ writes_saves w w'.

(** A successful run of [m] reads at least one line. *)
Definition strict_ret {A} (m : M A) : Prop :=
  forall w a w', m w = (Ret a, w') -> (length (stdin w') < length (stdin w))%nat.

(* ================================================================== *)
(** * Proofs *)

(** ** Monad and loop lemmas *)

Lemma bind_inv {A B} (m : M A) (k : A -> M B) w b w' :
  bind m k w = (Ret b, w') ->
  exists a w1, m w = (Ret a, w1) /\ k a w1 = (Ret b, w').
Proof.
  unfold bind. destruct (m w) as [[a|e] w1]; intro H; [eauto | discriminate].
Qed.

Lemma bind_print {B} s (k : unit -> M B) w :
  bind (print s) k w = k tt (set_stdout (app (stdout w) [s]) w).
Proof. reflexivity. Qed.

Lemma bind_int_m {B} x (k : Z -> M B) w :
  bind (int_m (Some x)) k w =
  match py_int x with Some z => k z w | None => (Raise ValueError, w) end.
Proof. unfold bind, int_m. destruct (py_int x); reflexivity. Qed.

Lemma bind_get_jobs {B} (k : list job -> M B) w :
  bind get_jobs k w = k (jobs w) w.
Proof. reflexivity. Qed.

Lemma bind_now {B} (k : datetime -> M B) w :
  bind now k w = k (clock w (ticks w)) (set_ticks (S (ticks w)) w).
Proof. reflexivity. Qed.

Lemma bind_open_w {B} name (k : unit -> M B) w :
  bind (open_w name) k w = k tt (set_fs (fs_update name EmptyString (fs w)) w).
Proof. reflexivity. Qed.

Lemma bind_fwrite {B} name s (k : unit -> M B) w :
  bind (fwrite name s) k w =
  k tt (set_fs (fs_update name
                  (match fs w name with Some c => c | None => EmptyString end ++ s)
                  (fs w)) w).
Proof. reflexivity. Qed.

Lemma bind_ret_l {A B} (m : M A) (k : A -> M B) w a w1 :
  m w = (Ret a, w1) -> bind m k w = k a w1.
Proof. unfold bind. intros ->. reflexivity. Qed.

(** Peel the binds of a successful run off a hypothesis. *)
Ltac inv_binds H :=
  repeat (cbv beta zeta in H;
          match type of H with
          | bind _ _ _ = (Ret _, _) =>
              let a := fresh "v" in let w1 := fresh "w" in
              let Hm := fresh "Hm" in
              apply bind_inv in H; destruct H as (a & w1 & Hm & H)
          end).

Section Loops.
Context {T A : Type} (body : T -> M (T + A)).

(** Every loop body of the script reads standard input before it finishes. *)
Hypothesis body_reads : forall s w r w',
  body s w = (Ret r, w') -> (length (stdin w') < length (stdin w))%nat.

Lemma loop_fuel_irrel f g s w :
  (length (stdin w) < f)%nat -> (length (stdin w) < g)%nat ->
  loop_fuel f body s w = loop_fuel g body s w.
Proof.
  revert g s w. induction f as [|f IH]; intros g s w Hf Hg; [lia|].
  destruct g as [|g]; [lia|]. cbn [loop_fuel].
  destruct (body s w) as [[[s'|a]|e] w'] eqn:E; try reflexivity.
  apply body_reads in E. apply IH; lia.
Qed.

Lemma while_true_unfold s w :
  while_true body s w =
  match body s w with
  | (Ret (inl s'), w') => while_true body s' w'
  | (Ret (inr a), w') => (Ret a, w')
  | (Raise e, w') => (Raise e, w')
  end.
Proof.
  unfold while_true at 1. cbn [loop_fuel].
  destruct (body s w) as [[[s'|a]|e] w'] eqn:E; try reflexivity.
  apply body_reads in E. unfold while_true. apply loop_fuel_irrel; lia.
Qed.

Lemma loop_fuel_reads f s w a w' :
  loop_fuel f body s w = (Ret a, w') ->
  (length (stdin w') < length (stdin w))%nat.
Proof.
  revert s w. induction f as [|f IH]; intros s w H;
    cbn [loop_fuel raise] in H; [discriminate|].
  destruct (body s w) as [[[s'|b]|e] w1] eqn:E; [| injection H as <- <- | discriminate].
  - apply body_reads in E. apply IH in H. lia.
  - eapply body_reads; eauto.
Qed.

Lemma while_true_reads s w a w' :
  while_true body s w = (Ret a, w') ->
  (length (stdin w') < length (stdin w))%nat.
Proof. apply loop_fuel_reads. Qed.

End Loops.

(** ** [get_user_input] *)

Lemma get_user_input_body_reads d r s w x w' :
  get_user_input_body d r s w = (Ret x, w') ->
  (length (stdin w') < length (stdin w))%nat.
Proof.
  unfold get_user_input_body, bind, input.
  destruct (stdin w) as [|l rest] eqn:Hw; [discriminate|].
  destruct (is_empty (strip l)), (is_some d), r; cbn;
    intro H; injection H as _ <-; cbn; try rewrite Hw; cbn; lia.
Qed.

Lemma get_user_input_reads p d r w x w' :
  get_user_input p d r w = (Ret x, w') ->
  (length (stdin w') < length (stdin w))%nat.
Proof. apply while_true_reads, get_user_input_body_reads. Qed.

Lemma get_user_input_default p d r w l rest :
  stdin w = l :: rest ->
  get_user_input p (Some d) r w =
  (Ret (Some (if is_empty (strip l) then d else strip l)), set_stdin rest w).
Proof.
  intro Hw. unfold get_user_input.
  rewrite while_true_unfold by apply get_user_input_body_reads.
  unfold get_user_input_body, bind, input. rewrite Hw.
  destruct (is_empty (strip l)); reflexivity.
Qed.

Lemma get_user_input_optional p w l rest :
  stdin w = l :: rest ->
  get_user_input p None false w =
  (Ret (if is_empty (strip l) then None else Some (strip l)), set_stdin rest w).
Proof.
  intro Hw. unfold get_user_input.
  rewrite while_true_unfold by apply get_user_input_body_reads.
  unfold get_user_input_body, bind, input. rewrite Hw.
  destruct (is_empty (strip l)); reflexivity.
Qed.

Lemma get_user_input_eof p d r w :
  stdin w = [] -> get_user_input p d r w = (Raise EOFError, w).
Proof.
  intro Hw. unfold get_user_input.
  rewrite while_true_unfold by apply get_user_input_body_reads.
  unfold get_user_input_body, bind, input. rewrite Hw. reflexivity.
Qed.

(** ** [get_validated_int] *)

Lemma get_validated_int_body_reads p lo hi d s w x w' :
  get_validated_int_body p lo hi d s w = (Ret x, w') ->
  (length (stdin w') < length (stdin w))%nat.
Proof.
  unfold get_validated_int_body. intro H. inv_binds H.
  apply get_user_input_reads in Hm.
  destruct v as [s'|]; [|discriminate].
  destruct (py_int s'); [destruct (_ && _)|];
    unfold ret, print, bind in H; cbn in H; injection H as _ <-; cbn; lia.
Qed.

Lemma get_validated_int_eof p lo hi d w :
  stdin w = [] -> get_validated_int p lo hi d w = (Raise EOFError, w).
Proof.
  intro Hw. unfold get_validated_int.
  rewrite while_true_unfold by apply get_validated_int_body_reads.
  unfold get_validated_int_body, bind at 1.
  rewrite get_user_input_eof by exact Hw. reflexivity.
Qed.

Lemma get_validated_int_step p lo hi d w l rest :
  stdin w = l :: rest ->
  get_validated_int p lo hi (Some d) w =
  match py_int (if is_empty (strip l) then d else strip l) with
  | Some z =>
      if (lo <=? z) && (z <=? hi) then (Ret z, set_stdin rest w)
      else get_validated_int p lo hi (Some d)
             (set_stdout (app (stdout w) ["Value must be between " ++ py_str_int lo ++
                                             " and " ++ py_str_int hi ++ "!"])
                (set_stdin rest w))
  | None =>
      get_validated_int p lo hi (Some d)
        (set_stdout (app (stdout w) ["Invalid input, please enter a number!"])
           (set_stdin rest w))
  end.
Proof.
  intro Hw. unfold get_validated_int at 1.
  rewrite while_true_unfold by apply get_validated_int_body_reads.
  unfold get_validated_int_body at 1.
  rewrite (bind_ret_l _ _ _ _ _ (get_user_input_default p d true w l rest Hw)).
  destruct (py_int _); [destruct (_ && _)|]; reflexivity.
Qed.

Lemma get_validated_int_outcome p lo hi d :
  forall n w, length (stdin w) = n ->
  match fst (get_validated_int p lo hi (Some d) w) with
  | Ret z => lo <= z <= hi
  | Raise e => e = EOFError
  end.
Proof.
  intro n. induction n as [n IH] using (well_founded_induction lt_wf).
  intros w Hn. destruct (stdin w) as [|l rest] eqn:Hw.
  - rewrite get_validated_int_eof by exact Hw. reflexivity.
  - rewrite (get_validated_int_step p lo hi d w l rest Hw).
    destruct (py_int _) as [z|].
    + destruct ((lo <=? z) && (z <=? hi)) eqn:Hr.
      * cbn. apply andb_true_iff in Hr. destruct Hr as [H1 H2].
        apply Z.leb_le in H1. apply Z.leb_le in H2. lia.
      * eapply IH; [| reflexivity]. cbn. rewrite <- Hn. cbn. lia.
    + eapply IH; [| reflexivity]. cbn. rewrite <- Hn. cbn. lia.
Qed.

(** ** [int(str(z)) = z] *)

Lemma digit_char_props d :
  0 <= d < 10 ->
  digit_val (digit_char d) = Some d /\ is_space (digit_char d) = false /\
  Ascii.eqb (digit_char d) "-" = false /\ Ascii.eqb (digit_char d) "+" = false.
Proof.
  intro Hd.
  assert (d = 0 \/ d = 1 \/ d = 2 \/ d = 3 \/ d = 4 \/ d = 5 \/ d = 6 \/
          d = 7 \/ d = 8 \/ d = 9) as Hc by lia.
  destruct Hc as [->|[->|[->|[->|[->|[->|[->|[->|[->| ->]]]]]]]]];
    repeat split; reflexivity.
Qed.

Lemma show_N_aux_digits f :
  forall n acc a b, 0 <= n -> (Z.to_nat n < f)%nat ->
  exists k, 0 <= k /\
    digits_val a b (show_N_aux f n acc) = digits_val (a * 10 ^ k + n) true acc.
Proof.
  induction f as [|f IH]; intros n acc a b Hn Hf; [lia|].
  cbn [show_N_aux].
  assert (Hm : 0 <= n mod 10 < 10) by (apply Z.mod_pos_bound; lia).
  destruct (Z.ltb_spec n 10) as [Hlt|Hge].
  - exists 1. split; [lia|]. cbn [digits_val].
    rewrite (proj1 (digit_char_props _ Hm)).
    rewrite Z.mod_small by lia. f_equal; lia.
  - destruct (IH (n / 10) (String (digit_char (n mod 10)) acc) a b) as (k & Hk & E).
    + apply Z.div_pos; lia.
    + assert (n / 10 < n) by (apply Z.div_lt; lia).
      assert (Z.to_nat (n / 10) < Z.to_nat n)%nat
        by (apply Z2Nat.inj_lt; [apply Z.div_pos | |]; lia).
      lia.
    + exists (Z.succ k). split; [lia|]. rewrite E. cbn [digits_val].
      rewrite (proj1 (digit_char_props _ Hm)). f_equal.
      rewrite Z.pow_succ_r by lia.
      pose proof (Z.div_mod n 10). lia.
Qed.

Lemma show_N_aux_head f :
  forall n acc, (0 < f)%nat ->
  exists d r, 0 <= d < 10 /\ show_N_aux f n acc = String (digit_char d) r.
Proof.
  induction f as [|f IH]; intros n acc Hf; [lia|].
  assert (Hm : 0 <= n mod 10 < 10) by (apply Z.mod_pos_bound; lia).
  cbn [show_N_aux]. destruct (n <? 10); [eauto|].
  destruct f as [|f]; [cbn; eauto|]. apply IH. lia.
Qed.

Lemma py_int_show_nonneg n :
  0 <= n -> py_int (show_nonneg n) = Some n.
Proof.
  intro Hn. unfold show_nonneg.
  destruct (show_N_aux_head (S (Z.to_nat n)) n EmptyString) as (d & r & Hd & E);
    [lia|].
  destruct (digit_char_props d Hd) as (_ & Hsp & Hminus & Hplus).
  destruct (show_N_aux_digits (S (Z.to_nat n)) n EmptyString 0 false) as (k & _ & D);
    [lia | lia |].
  unfold py_int. rewrite E. cbn [lstrip]. rewrite Hsp, Hminus, Hplus.
  rewrite <- E, D. reflexivity.
Qed.

Lemma py_int_str_int z : py_int (py_str_int z) = Some z.
Proof.
  unfold py_str_int. destruct (Z.ltb_spec z 0).
  - unfold py_int. cbn [lstrip]. replace (is_space "-") with false by reflexivity.
    replace (Ascii.eqb "-" "-") with true by reflexivity.
    change (digits_val 0 false (show_nonneg (- z))) with
      (let r := show_nonneg (- z) in digits_val 0 false r).
    unfold show_nonneg.
    destruct (show_N_aux_digits (S (Z.to_nat (- z))) (- z) EmptyString 0 false)
      as (k & _ & D); [lia | lia |].
    cbv zeta. rewrite D. cbn. f_equal. lia.
  - apply py_int_show_nonneg. lia.
Qed.

Lemma py_str_int_nonempty z : is_empty (py_str_int z) = false.
Proof.
  unfold py_str_int. destruct (z <? 0); [reflexivity|].
  unfold show_nonneg.
  destruct (show_N_aux_head (S (Z.to_nat z)) z EmptyString) as (d & r & _ & ->);
    [lia | reflexivity].
Qed.

Lemma str_app_assoc (a b c : string) : (a ++ b) ++ c = a ++ (b ++ c).
Proof. induction a as [|x a IH]; cbn; [reflexivity | rewrite IH; reflexivity]. Qed.

Lemma contains_app_l (a b m : string) :
  (exists pre post, b = pre ++ m ++ post) ->
  exists pre post, a ++ b = pre ++ m ++ post.
Proof.
  intros (pre & post & ->). exists (a ++ pre), post.
  rewrite str_app_assoc. reflexivity.
Qed.

Lemma lstrip_no_space s : no_space s = true -> lstrip s = s.
Proof.
  destruct s as [|c s']; [reflexivity|]. cbn [no_space lstrip]. intro H.
  apply andb_prop in H. destruct H as [H _]. destruct (is_space c); [discriminate | reflexivity].
Qed.

Lemma rstrip_no_space s : no_space s = true -> rstrip s = s.
Proof.
  induction s as [|c s' IH]; [reflexivity|]. cbn [no_space rstrip]. intro H.
  apply andb_prop in H. destruct H as [Hc Hs]. rewrite (IH Hs).
  destruct s'; [|reflexivity]. destruct (is_space c); [discriminate | reflexivity].
Qed.

Lemma show_N_aux_no_space f :
  forall n acc, no_space acc = true -> no_space (show_N_aux f n acc) = true.
Proof.
  induction f as [|f IH]; intros n acc H; [exact H|].
  assert (Hm : 0 <= n mod 10 < 10) by (apply Z.mod_pos_bound; lia).
  assert (Hd : no_space (String (digit_char (n mod 10)) acc) = true)
    by (cbn [no_space]; rewrite (proj1 (proj2 (digit_char_props _ Hm))), H; reflexivity).
  cbn [show_N_aux]. destruct (n <? 10); [exact Hd | apply IH; exact Hd].
Qed.

Lemma strip_py_str_int z : strip (py_str_int z) = py_str_int z.
Proof.
  assert (H : no_space (py_str_int z) = true).
  { unfold py_str_int, show_nonneg. destruct (z <? 0).
    - cbn [no_space]. apply andb_true_intro. split; [reflexivity|].
      apply show_N_aux_no_space. reflexivity.
    - apply show_N_aux_no_space. reflexivity. }
  unfold strip. rewrite (lstrip_no_space _ H). apply rstrip_no_space, H.
Qed.

(** Run the steps of a computation on the goal side whose result does not
    depend on a variable: each bound step is evaluated and its result
    substituted. *)
Ltac run_goal :=
  repeat first
    [ rewrite bind_print; cbv beta
    | match goal with
      | |- context [bind ?m ?k ?w] =>
          let r := eval vm_compute in (m w) in
          lazymatch r with
          | (Ret ?x, ?w1) =>
              rewrite (bind_ret_l m k w x w1 ltac:(vm_compute; reflexivity)); cbv beta
          end
      end ].

(** Read a line [l] whose stripped text [strip l] is non-blank. *)
Ltac read_line Hs Hne :=
  match goal with
  | |- context [bind (get_user_input ?p (Some ?d) ?r) ?k ?w] =>
      lazymatch eval cbn in (stdin w) with
      | ?l :: ?rest =>
          rewrite (bind_ret_l _ k w _ _ (get_user_input_default p d r w l rest eq_refl));
          cbv beta; rewrite ?Hs; rewrite ?Hne; cbv iota
      end
  end.

Lemma get_validated_int_raise_eof p lo hi d :
  forall n w, length (stdin w) = n ->
  forall e, fst (get_validated_int p lo hi (Some d) w) = Raise e ->
  stdin (snd (get_validated_int p lo hi (Some d) w)) = [].
Proof.
  intro n. induction n as [n IH] using (well_founded_induction lt_wf).
  intros w Hn e He. destruct (stdin w) as [|l rest] eqn:Hw.
  - rewrite get_validated_int_eof by exact Hw. exact Hw.
  - rewrite (get_validated_int_step p lo hi d w l rest Hw) in He |- *.
    destruct (py_int _) as [z|].
    + destruct ((lo <=? z) && (z <=? hi)); [discriminate He|].
      eapply IH; [| reflexivity | exact He]. cbn. rewrite <- Hn. cbn. lia.
    + eapply IH; [| reflexivity | exact He]. cbn. rewrite <- Hn. cbn. lia.
Qed.

Lemma contains_app_f (a b : string) (F : string -> string) :
  (exists pre post, b = pre ++ F post) ->
  exists pre post, a ++ b = pre ++ F post.
Proof.
  intros (pre & post & ->). exists (a ++ pre), post.
  rewrite str_app_assoc. reflexivity.
Qed.

Lemma job_template_max_salary tn jn col mo de we cmd mp sal vr hl cd sp :
  exists pre post,
    job_template tn jn col mo de we cmd mp sal vr hl cd sp =
    pre ++ "    max = " ++ py_str_int mp ++ "," ++ nl ++
           "    salary = " ++ py_str_int sal ++ "," ++ post.
Proof.
  unfold job_template.
  repeat (first [ exists EmptyString; eexists; reflexivity
                | apply (contains_app_f _ _ (fun post => "    max = " ++ py_str_int mp ++
                           "," ++ nl ++ "    salary = " ++ py_str_int sal ++ "," ++ post)) ]).
Qed.

(** Any integers answered to "Max Players" and "Salary" are taken as they
    are and written into the block. *)
Lemma create_job_any_max_salary (zm zs : Z) (rest : list string) out f clk t js :
  exists c,
    fst (create_job (mkworld (max_players_prefix ++ py_str_int zm :: py_str_int zs ::
                              repeat blank 10 ++ rest) out f clk t js)) = Ret c /\
    exists pre post,
      c = pre ++ "    max = " ++ py_str_int zm ++ "," ++ nl ++
                 "    salary = " ++ py_str_int zs ++ "," ++ post.
Proof.
  eexists. split; [|apply job_template_max_salary].
  pose proof (strip_py_str_int zm) as Sm. pose proof (py_str_int_nonempty zm) as Em.
  pose proof (py_int_str_int zm) as Pm.
  pose proof (strip_py_str_int zs) as Ss. pose proof (py_str_int_nonempty zs) as Es.
  pose proof (py_int_str_int zs) as Ps.
  remember (py_str_int zm) as a eqn:Ea. remember (py_str_int zs) as b eqn:Eb.
  unfold create_job. run_goal.
  read_line Sm Em. rewrite bind_int_m, Pm. cbv beta iota.
  read_line Ss Es. rewrite bind_int_m, Ps. cbv beta iota.
  run_goal. reflexivity.
Qed.

(** A non-numeric answer to "Max Players" is not re-asked: [create_job]
    raises [ValueError] after reading only that line. *)
Lemma create_job_bad_max_players (s : string) (rest : list string) out f clk t js :
  is_empty (strip s) = false -> py_int (strip s) = None ->
  let w := mkworld (max_players_prefix ++ s :: rest) out f clk t js in
  fst (create_job w) = Raise ValueError /\ stdin (snd (create_job w)) = rest.
Proof.
  intros Hne Hp w. subst w. unfold create_job. run_goal.
  read_line Hne Hne. rewrite bind_int_m, Hp. split; reflexivity.
Qed.

(** The same for "Salary". *)
Lemma create_job_bad_salary (zm : Z) (s : string) (rest : list string) out f clk t js :
  is_empty (strip s) = false -> py_int (strip s) = None ->
  let w := mkworld (max_players_prefix ++ py_str_int zm :: s :: rest) out f clk t js in
  fst (create_job w) = Raise ValueError /\ stdin (snd (create_job w)) = rest.
Proof.
  intros Hne Hp w. subst w.
  pose proof (strip_py_str_int zm) as Sm. pose proof (py_str_int_nonempty zm) as Em.
  pose proof (py_int_str_int zm) as Pm.
  remember (py_str_int zm) as a eqn:Ea.
  unfold create_job. run_goal.
  read_line Sm Em. rewrite bind_int_m, Pm. cbv beta iota.
  read_line Hne Hne. rewrite bind_int_m, Hp. split; reflexivity.
Qed.

(** Any seven integers are taken as the spawn settings as they are. *)
Lemma get_spawn_settings_any (h mh ar ma ws rs jp : Z) (rest : list string) out f clk t js :
  fst (get_spawn_settings
         (mkworld (map py_str_int [h; mh; ar; ma; ws; rs; jp] ++ rest) out f clk t js)) =
  Ret (mkspawn h mh ar ma ws rs jp).
Proof.
  cbn [map app]. unfold get_spawn_settings. rewrite bind_print. cbv beta.
  repeat (read_line strip_py_str_int py_str_int_nonempty;
          first [rewrite bind_int_m, py_int_str_int; cbv beta iota
                | cbn [truthy]; rewrite py_str_int_nonempty; cbn [negb]; cbv iota;
                  rewrite bind_int_m, py_int_str_int; cbv beta iota]).
  reflexivity.
Qed.

(** ** C1: integer prompts *)

(** C1 (corrected).  The prompts read through [get_validated_int] (the four
    colour channels, with range [0, 255]): with [response] the stripped line,
    or the default when it is blank, an integer response inside [min, max] is
    returned and consumes that one line; a non-numeric or out-of-range
    response prints a message and the loop starts over on the next line with
    nothing else changed; every returned value lies in range, and the only
    exception that can leave the loop is [EOFError], raised when standard
    input is exhausted.  Max players, salary and the spawn settings are not
    read through this loop and have no bound: any integers answered there are
    taken as they are (max players and salary end up in the block), and a
    non-numeric answer to "Max Players" or "Salary" is not asked again but
    makes [create_job] raise [ValueError] right after reading it. *)
Theorem get_validated_int_rejects_until_in_range (prompt : string) (lo hi : Z)
  (d : string) (w : world) (l : string) (rest : list string)
  (Hin : stdin w = l :: rest) :
  let response := if is_empty (strip l) then d else strip l in
  (forall z, py_int response = Some z -> lo <= z <= hi ->
     get_validated_int prompt lo hi (Some d) w = (Ret z, set_stdin rest w)) /\
  ((py_int response = None \/
    exists z, py_int response = Some z /\ ~ (lo <= z <= hi)) ->
   exists msg, get_validated_int prompt lo hi (Some d) w =
               get_validated_int prompt lo hi (Some d)
                 (set_stdout (app (stdout w) [msg]) (set_stdin rest w))) /\
  (forall w0, match fst (get_validated_int prompt lo hi (Some d) w0) with
              | Ret z => lo <= z <= hi
              | Raise e =>
                  e = EOFError /\ stdin (snd (get_validated_int prompt lo hi (Some d) w0)) = []
              end) /\
  (forall (zm zs : Z) (rest' : list string) out f clk t js,
     exists c,
       fst (create_job (mkworld (max_players_prefix ++ py_str_int zm :: py_str_int zs ::
                                 repeat blank 10 ++ rest') out f clk t js)) = Ret c /\
       exists pre post,
         c = pre ++ "    max = " ++ py_str_int zm ++ "," ++ nl ++
                    "    salary = " ++ py_str_int zs ++ "," ++ post) /\
  (forall (s : string) (rest' : list string) out f clk t js,
     is_empty (strip s) = false -> py_int (strip s) = None ->
     (let w1 := mkworld (max_players_prefix ++ s :: rest') out f clk t js in
      fst (create_job w1) = Raise ValueError /\ stdin (snd (create_job w1)) = rest') /\
     (forall zm, let w1 := mkworld (max_players_prefix ++ py_str_int zm :: s :: rest')
                             out f clk t js in
      fst (create_job w1) = Raise ValueError /\ stdin (snd (create_job w1)) = rest')) /\
  (forall (h mh ar ma ws rs jp : Z) (rest' : list string) out f clk t js,
     fst (get_spawn_settings
            (mkworld (map py_str_int [h; mh; ar; ma; ws; rs; jp] ++ rest') out f clk t js)) =
     Ret (mkspawn h mh ar ma ws rs jp)).
Proof.
  intro response. rewrite (get_validated_int_step prompt lo hi d w l rest Hin).
  fold response. split; [|split; [|split; [|split; [|split]]]].
  - intros z Hz Hr. rewrite Hz.
    replace ((lo <=? z) && (z <=? hi)) with true; [reflexivity|].
    symmetry. apply andb_true_iff. split; apply Z.leb_le; lia.
  - intros [Hz | (z & Hz & Hr)]; rewrite Hz; [eexists; reflexivity|].
    replace ((lo <=? z) && (z <=? hi)) with false; [eexists; reflexivity|].
    destruct (Z.leb_spec lo z), (Z.leb_spec z hi); try reflexivity; lia.
  - intro w0.
    pose proof (get_validated_int_outcome prompt lo hi d (length (stdin w0)) w0 eq_refl) as O.
    destruct (fst (get_validated_int prompt lo hi (Some d) w0)) as [z|e] eqn:E;
      [exact O|].
    split; [exact O|].
    exact (get_validated_int_raise_eof prompt lo hi d _ w0 eq_refl e E).
  - intros. apply create_job_any_max_salary.
  - intros s rest' out f clk t js Hne Hp. split.
    + apply create_job_bad_max_players; assumption.
    + intro zm. apply create_job_bad_salary; assumption.
  - intros. apply get_spawn_settings_any.
Qed.

(** The red channel rejects [abc] and starts over on the next line, while
    [abc] for "Max Players" makes [create_job] raise. *)
Lemma get_validated_int_rejects_until_in_range_witness :
  (exists msg,
    get_validated_int "Red (0-255)" 0 255 (Some "50")
      (start_world ["abc"; "7"] fixed_clock) =
    get_validated_int "Red (0-255)" 0 255 (Some "50")
      (set_stdout [msg] (set_stdin ["7"] (start_world ["abc"; "7"] fixed_clock)))) /\
  fst (create_job (mkworld (max_players_prefix ++ ["abc"]) [] (fun _ => None)
                     fixed_clock 0 [])) = Raise ValueError.
Proof.
  destruct (get_validated_int_rejects_until_in_range "Red (0-255)" 0 255 "50"
              (start_world ["abc"; "7"] fixed_clock) "abc" ["7"] eq_refl)
    as (_ & Hrej & _ & _ & Hbad & _).
  split.
  - apply Hrej. left. reflexivity.
  - exact (proj1 (proj1 (Hbad "abc" [] [] (fun _ => None) fixed_clock 0%nat []
                           eq_refl eq_refl))).
Defined.

(** C1 counterexample: "Max Players" is read with a bare [int(...)], so the
    answer [abc] makes [create_job] raise [ValueError] to its caller. *)
Lemma create_job_max_players_raises :
  fst (create_job (start_world
         ["TEAM_TEST"; "Tester"; blank; blank; blank; blank; blank; blank;
          blank; blank; "abc"] fixed_clock)) = Raise ValueError.
Proof. vm_compute. reflexivity. Qed.

(** ** The collection loop of [get_models_input] and [get_weapons_input] *)

Lemma collect_body_reads ep ap de items w x w' :
  collect_body ep ap de items w = (Ret x, w') ->
  (length (stdin w') < length (stdin w))%nat.
Proof.
  unfold collect_body. intro H. inv_binds H.
  apply get_user_input_reads in Hm.
  destruct (negb (truthy v)).
  - unfold ret in H. injection H as _ <-. exact Hm.
  - inv_binds H. apply get_user_input_reads in Hm0.
    destruct v0 as [a|]; cbn in Hm1; [|discriminate]. injection Hm1 as _ <-.
    destruct (negb _); unfold ret in H; injection H as _ <-; lia.
Qed.

Lemma collect_blank ep ap de items w l rest :
  stdin w = l :: rest -> is_empty (strip l) = true ->
  while_true (collect_body ep ap de) items w =
  (Ret (match items with [] => [dq ++ de ++ dq] | _ => items end),
   set_stdin rest w).
Proof.
  intros Hw Hb. rewrite while_true_unfold by apply collect_body_reads.
  unfold collect_body at 1.
  rewrite (bind_ret_l _ _ _ _ _ (get_user_input_optional ep w l rest Hw)).
  rewrite Hb. destruct items; reflexivity.
Qed.

Lemma collect_entry ep ap de items w l a rest :
  stdin w = l :: a :: rest -> is_empty (strip l) = false ->
  while_true (collect_body ep ap de) items w =
  if String.eqb (lower (if is_empty (strip a) then "n" else strip a)) "y"
  then while_true (collect_body ep ap de) (app items [dq ++ strip l ++ dq])
         (set_stdin rest w)
  else (Ret (app items [dq ++ strip l ++ dq]), set_stdin rest w).
Proof.
  intros Hw Hb. rewrite while_true_unfold by apply collect_body_reads.
  unfold collect_body at 1.
  rewrite (bind_ret_l _ _ _ _ _ (get_user_input_optional ep w l (a :: rest) Hw)).
  cbv beta. rewrite Hb. cbv iota. unfold truthy. rewrite Hb. cbv iota. cbn [negb].
  rewrite (bind_ret_l _ _ _ _ _
             (get_user_input_default ap "n" true (set_stdin (a :: rest) w) a rest
                eq_refl)).
  unfold bind, lower_m, ret. cbn [fmt_opt].
  destruct (String.eqb _ "y"); reflexivity.
Qed.

Lemma collect_script ep ap de ps :
  Forall entry_ok ps ->
  forall items rest w, stdin w = app (entries_script ps) rest ->
  while_true (collect_body ep ap de) items w =
  (Ret (match app items (map quote ps) with [] => [quote de] | xs => xs end),
   set_stdin rest w).
Proof.
  induction 1 as [|p ps [Hp Hs] Hok IH]; intros items rest w Hw.
  - rewrite (collect_blank ep ap de items w blank rest Hw eq_refl).
    rewrite app_nil_r. destruct items; reflexivity.
  - rewrite (collect_entry ep ap de items w p "y"
               (app (entries_script ps) rest) Hw Hp).
    replace (String.eqb (lower (if is_empty (strip "y") then "n" else strip "y")) "y")
      with true by reflexivity.
    rewrite Hs.
    rewrite (IH (app items [dq ++ p ++ dq]) rest) by reflexivity.
    rewrite <- app_assoc. reflexivity.
Qed.

(** C2 (corrected).  [models_loop] and [weapons_loop] are both
    [while_true (collect_body ...)].  One round reads an entry; a blank entry
    ends the loop (with the default entry when nothing was collected).  A
    non-blank entry is stored and followed by the question "Add another ...?"
    (default [n]): the loop prompts for the next entry only when that answer,
    lower-cased, is [y], and ends otherwise. *)
Theorem collect_loop_rounds (ep ap de : string) (items : list string)
  (w : world) (l : string) (rest : list string) (Hin : stdin w = l :: rest) :
  (is_empty (strip l) = true ->
   while_true (collect_body ep ap de) items w =
   (Ret (match items with [] => [quote de] | _ => items end), set_stdin rest w)) /\
  (is_empty (strip l) = false -> forall a rest', rest = a :: rest' ->
   while_true (collect_body ep ap de) items w =
   if String.eqb (lower (if is_empty (strip a) then "n" else strip a)) "y"
   then while_true (collect_body ep ap de) (app items [quote (strip l)])
          (set_stdin rest' w)
   else (Ret (app items [quote (strip l)]), set_stdin rest' w)).
Proof.
  split.
  - intro Hb. exact (collect_blank ep ap de items w l rest Hin Hb).
  - intros Hb a rest' ->. exact (collect_entry ep ap de items w l a rest' Hin Hb).
Qed.

(** One model entered, then [n]: the loop ends with that entry. *)
Lemma collect_loop_rounds_witness :
  models_loop [] (start_world ["models/a.mdl"; "n"] fixed_clock) =
  (Ret [quote "models/a.mdl"], set_stdin [] (start_world ["models/a.mdl"; "n"] fixed_clock)).
Proof.
  destruct (collect_loop_rounds "Model path (e.g., models/player/urban.mdl)"
              "Add another model? (y/n)" "models/player/urban.mdl" []
              (start_world ["models/a.mdl"; "n"] fixed_clock) "models/a.mdl" ["n"]
              eq_refl) as [_ Hentry].
  unfold models_loop. rewrite (Hentry eq_refl "n" [] eq_refl). reflexivity.
Defined.

(** C2 counterexample: after the non-blank entry [models/a.mdl] the answer
    [n] ends the loop; the next line is never read as a model path. *)
Lemma get_models_input_stops_after_entry :
  let r := get_models_input
             (start_world ["models/a.mdl"; "n"; "models/b.mdl"] fixed_clock) in
  fst r = Ret (quote "models/a.mdl") /\ stdin (snd r) = ["models/b.mdl"].
Proof. vm_compute. split; reflexivity. Qed.

(** ** C3 and C4: rendering of the collected lists *)

(** C3.  Entering the models [ps] (each followed by [y], then a blank entry)
    makes [get_models_input] return the built-in default literal for no
    model, the single quoted model without braces for one, and the brace
    list of the quoted models in entry order for two or more. *)
Theorem get_models_input_trichotomy (ps rest : list string) (w : world)
  (Hok : Forall entry_ok ps) (Hin : stdin w = app (entries_script ps) rest) :
  fst (get_models_input w) =
  Ret (match ps with
       | [] => quote "models/player/urban.mdl"
       | [p] => quote p
       | _ => "{" ++ join ", " (map quote ps) ++ "}"
       end) /\
  stdin (snd (get_models_input w)) = rest.
Proof.
  unfold get_models_input. rewrite bind_print. cbv beta. unfold models_loop.
  erewrite bind_ret_l by (apply collect_script; [exact Hok | exact Hin]).
  destruct ps as [|p [|p2 ps]]; split; reflexivity.
Qed.

Lemma get_models_input_trichotomy_witness :
  fst (get_models_input
         (start_world (entries_script ["models/a.mdl"; "models/b.mdl"]) fixed_clock)) =
  Ret ("{" ++ join ", " (map quote ["models/a.mdl"; "models/b.mdl"]) ++ "}").
Proof.
  refine (proj1 (get_models_input_trichotomy ["models/a.mdl"; "models/b.mdl"] []
                   _ _ _)).
  - repeat constructor.
  - rewrite app_nil_r. reflexivity.
Defined.

(** C4.  Entering the weapons [ps] makes [get_weapons_input] return a brace
    list in every case: of the quoted weapons in entry order, even for a
    single one, and of the one default [weapon_pistol] exactly when no
    weapon was entered. *)
Theorem get_weapons_input_always_braced (ps rest : list string) (w : world)
  (Hok : Forall entry_ok ps) (Hin : stdin w = app (entries_script ps) rest) :
  fst (get_weapons_input w) =
  Ret ("{" ++ join ", " (map quote (match ps with
                                    | [] => ["weapon_pistol"]
                                    | _ => ps
                                    end)) ++ "}") /\
  stdin (snd (get_weapons_input w)) = rest.
Proof.
  unfold get_weapons_input. rewrite bind_print. cbv beta. unfold weapons_loop.
  erewrite bind_ret_l by (apply collect_script; [exact Hok | exact Hin]).
  destruct ps as [|p ps]; split; reflexivity.
Qed.

Lemma get_weapons_input_always_braced_witness :
  fst (get_weapons_input
         (start_world (entries_script ["weapon_pistol"]) fixed_clock)) =
  Ret ("{" ++ join ", " (map quote ["weapon_pistol"]) ++ "}").
Proof.
  refine (proj1 (get_weapons_input_always_braced ["weapon_pistol"] [] _ _ _)).
  - repeat constructor.
  - rewrite app_nil_r. reflexivity.
Defined.

(** ** C5: the max-armor default *)

(** A read with a default on a world whose next input line is known. *)
Ltac read_step H :=
  match type of H with
  | context [bind (get_user_input ?p (Some ?d) ?r) ?k ?w] =>
      lazymatch eval cbn in (stdin w) with
      | ?l :: ?rest =>
          rewrite (bind_ret_l _ k w _ _
                     (get_user_input_default p d r w l rest eq_refl)) in H;
          cbv beta in H
      end
  end.

(** An [int(...)] that must succeed for the run to return. *)
Ltac int_step H :=
  match type of H with
  | context [bind (int_m (Some ?x)) ?k ?w] =>
      rewrite (bind_int_m x k w) in H;
      let z := fresh "z" in let E := fresh "E" in
      destruct (py_int x) as [z|] eqn:E; [cbv beta in H | discriminate H]
  end.

(** C5.  When [get_spawn_settings] returns, the recorded [max_armor] is the
    recorded [armor] if the answer to the max-armor prompt (its fourth line)
    is blank, and otherwise the integer parsed from that answer, [0]
    included, whatever the armor is. *)
Theorem get_spawn_settings_max_armor (w w' : world) (h mh a ma : string)
  (rest : list string) (s : spawn_settings)
  (Hin : stdin w = h :: mh :: a :: ma :: rest)
  (Hrun : get_spawn_settings w = (Ret s, w')) :
  (is_empty (strip ma) = true -> max_armor s = armor s) /\
  (is_empty (strip ma) = false -> py_int (strip ma) = Some (max_armor s)).
Proof.
  destruct w as [inp out f clk t js]. cbn in Hin. subst inp.
  unfold get_spawn_settings in Hrun. rewrite bind_print in Hrun. cbv beta in Hrun.
  read_step Hrun. int_step Hrun. read_step Hrun. int_step Hrun.
  read_step Hrun. int_step Hrun. read_step Hrun.
  destruct (is_empty (strip ma)) eqn:Hma.
  - cbv iota in Hrun. unfold truthy in Hrun. cbv iota in Hrun.
    rewrite py_str_int_nonempty in Hrun. cbn [negb] in Hrun. cbv iota in Hrun.
    rewrite bind_int_m, py_int_str_int in Hrun. cbv beta iota in Hrun.
    inv_binds Hrun. unfold ret in Hrun. injection Hrun as <- _.
    split; intro Hx; [reflexivity | discriminate].
  - cbv iota in Hrun. unfold truthy in Hrun. cbv iota in Hrun.
    rewrite Hma in Hrun. cbn [negb] in Hrun. cbv iota in Hrun.
    rewrite bind_int_m in Hrun.
    destruct (py_int (strip ma)) as [m|] eqn:Em; [|discriminate Hrun].
    cbv beta in Hrun. inv_binds Hrun. unfold ret in Hrun. injection Hrun as <- _.
    split; intro Hx; [discriminate | reflexivity].
Qed.

Lemma get_spawn_settings_max_armor_witness :
  py_int (strip "0") = Some (max_armor (mkspawn 100 100 25 0 200 400 200)).
Proof.
  refine (proj2 (get_spawn_settings_max_armor
                   (start_world ["100"; blank; "25"; "0"; blank; blank; blank] fixed_clock)
                   (snd (get_spawn_settings
                           (start_world ["100"; blank; "25"; "0"; blank; blank; blank]
                              fixed_clock)))
                   "100" blank "25" "0" [blank; blank; blank]
                   (mkspawn 100 100 25 0 200 400 200) eq_refl _) eq_refl).
  vm_compute. reflexivity.
Defined.

(** ** C6: the end-to-end example *)

(** C6.  On the spec's end-to-end session, whatever follows on standard
    input and whatever the rest of the process state, [create_job] returns
    the block [tester_block]: [TEAM_TEST = DarkRP.createJob("Tester", {...})]
    with [command = "tester"], [vote = false], [hasLicense = true],
    [candemote = false] and the setter calls SetHealth(100), SetMaxHealth(100),
    SetArmor(0), SetMaxArmor(0), SetWalkSpeed(200), SetRunSpeed(400),
    SetJumpPower(200) in this order. *)
Theorem create_job_tester_example (rest out : list string)
  (f : string -> option string) (clk : nat -> datetime) (t : nat) (js : list job) :
  fst (create_job (mkworld (app tester_input rest) out f clk t js)) =
  Ret tester_block.
Proof. vm_compute. reflexivity. Qed.

(** ** C10: the constant [admin] field *)

Lemma job_template_admin tn jn col mo de we cmd mp sal vr hl cd sp :
  exists pre post,
    job_template tn jn col mo de we cmd mp sal vr hl cd sp =
    pre ++ (nl ++ "    admin = 0," ++ nl) ++ post.
Proof.
  unfold job_template.
  repeat (first [ exists EmptyString; eexists; reflexivity
                | apply contains_app_l ]).
Qed.

(** C10.  Whatever the user answers, every block [create_job] renders
    contains the line [    admin = 0,], a field that no prompt sets. *)
Theorem create_job_admin_zero (w w' : world) (c : string)
  (Hrun : create_job w = (Ret c, w')) :
  exists pre post, c = pre ++ (nl ++ "    admin = 0," ++ nl) ++ post.
Proof.
  unfold create_job in Hrun. inv_binds Hrun.
  unfold ret in Hrun. injection Hrun as <- _.
  apply job_template_admin.
Qed.

Lemma create_job_admin_zero_witness :
  exists pre post, tester_block = pre ++ (nl ++ "    admin = 0," ++ nl) ++ post.
Proof.
  apply (create_job_admin_zero (start_world tester_input fixed_clock)
           (snd (create_job (start_world tester_input fixed_clock)))).
  vm_compute. reflexivity.
Defined.

(** ** [save_jobs] *)

Lemma str_app_empty_r (a : string) : a ++ EmptyString = a.
Proof. induction a as [|x a IH]; cbn; [reflexivity | rewrite IH; reflexivity]. Qed.

Lemma fs_update_eq name x f : fs_update name x f name = Some x.
Proof. unfold fs_update. rewrite String.eqb_refl. reflexivity. Qed.

Lemma for_each_writes name js :
  forall c w, fs w name = Some c ->
  let r := for_each js (fun j => fwrite name (code j) ;; fwrite name (nl ++ nl)) w in
  fst r = Ret tt /\
  (forall n, fs (snd r) n =
             if String.eqb n name then Some (c ++ body_text js) else fs w n) /\
  stdout (snd r) = stdout w /\ clock (snd r) = clock w /\
  ticks (snd r) = ticks w /\ jobs (snd r) = jobs w.
Proof.
  induction js as [|j js IH]; intros c w Hc; cbv zeta.
  - cbn. split; [reflexivity|]. split; [|repeat split].
    intro n. destruct (String.eqb_spec n name) as [->|]; [|reflexivity].
    rewrite Hc, str_app_empty_r. reflexivity.
  - cbn [for_each].
    set (w1 := set_fs (fs_update name (c ++ code j) (fs w)) w).
    set (w2 := set_fs (fs_update name ((c ++ code j) ++ nl ++ nl) (fs w1)) w1).
    assert (Hstep : (fwrite name (code j) ;; fwrite name (nl ++ nl)) w = (Ret tt, w2)).
    { unfold bind, fwrite. rewrite Hc. fold w1.
      unfold w2. cbn [fs set_fs w1]. rewrite fs_update_eq. reflexivity. }
    rewrite (bind_ret_l _ _ _ _ _ Hstep).
    destruct (IH ((c ++ code j) ++ nl ++ nl) w2) as (H1 & H2 & H3 & H4 & H5 & H6).
    { unfold w2. cbn [fs set_fs]. apply fs_update_eq. }
    destruct (for_each js _ w2) as [r w3].
    unfold w2, w1 in *. cbn [fst snd stdout clock ticks jobs fs set_fs] in *.
    subst r. split; [reflexivity|]. split; [|repeat split; assumption].
    intro n. rewrite H2. unfold fs_update.
    change (body_text (j :: js)) with (code j ++ nl ++ nl ++ body_text js).
    destruct (String.eqb n name); [|reflexivity].
    rewrite !str_app_assoc. reflexivity.
Qed.

Lemma save_jobs_nonempty w j js :
  jobs w = j :: js ->
  fst (save_jobs w) = Ret tt /\
  fs (snd (save_jobs w)) ("darkrp_jobs_" ++ strftime_compact (clock w (ticks w)) ++ ".lua") =
    Some (saved_header (clock w (S (ticks w))) ++ body_text (jobs w)) /\
  (forall n, n <> "darkrp_jobs_" ++ strftime_compact (clock w (ticks w)) ++ ".lua" ->
             fs (snd (save_jobs w)) n = fs w n) /\
  jobs (snd (save_jobs w)) = jobs w /\ clock (snd (save_jobs w)) = clock w /\
  ticks (snd (save_jobs w)) = S (S (ticks w)).
Proof.
  intro Hj. unfold save_jobs.
  rewrite bind_get_jobs, Hj. cbv beta iota.
  rewrite bind_now. cbv beta zeta.
  set (fn := "darkrp_jobs_" ++ strftime_compact (clock w (ticks w)) ++ ".lua").
  rewrite bind_open_w. cbv beta.
  rewrite bind_fwrite. cbv beta.
  rewrite bind_now. cbv beta.
  rewrite bind_fwrite. cbv beta.
  cbn [fs set_fs set_ticks ticks clock]. rewrite !fs_update_eq.
  match goal with
  | |- context [bind (for_each ?l ?body) ?k (set_fs (fs_update fn ?c ?f) ?w0)] =>
      set (W := set_fs (fs_update fn c f) w0);
      destruct (for_each_writes fn l c W) as (H1 & H2 & H3 & H4 & H5 & H6);
        [unfold W; cbn [fs set_fs]; apply fs_update_eq|];
      destruct (for_each l body W) as [r w6] eqn:E
  end.
  cbn [fst snd] in H1, H2, H3, H4, H5, H6. subst r.
  rewrite (bind_ret_l _ _ _ _ _ E).
  unfold print. cbn [fst snd fs stdout set_stdout jobs clock ticks].
  rewrite H4, H5, H6. unfold W. cbn [jobs clock ticks set_fs set_ticks].
  split; [reflexivity|]. split; [|split; [|repeat split; congruence]].
  - rewrite H2, String.eqb_refl. f_equal.
  - intros n Hn. rewrite H2. unfold W. cbn [fs set_fs]. unfold fs_update.
    rewrite (proj2 (String.eqb_neq n fn) Hn). reflexivity.
Qed.

Lemma dec_width_add b : forall n k, dec_width b (n + k * 10 ^ Z.of_nat b) = dec_width b n.
Proof.
  induction b as [|b IH]; intros n k; cbn [dec_width]; [reflexivity|].
  rewrite Nat2Z.inj_succ, Z.pow_succ_r by lia.
  replace (n + k * (10 * 10 ^ Z.of_nat b)) with (n + (k * 10 ^ Z.of_nat b) * 10) by ring.
  rewrite Z.div_add, Z.mod_add by lia. rewrite IH. reflexivity.
Qed.

Lemma dec_width_split a b : forall n,
  dec_width (b + a) n = dec_width a (n / 10 ^ Z.of_nat b) ++ dec_width b n.
Proof.
  induction b as [|b IH]; intro n; cbn [dec_width Nat.add].
  - change (10 ^ Z.of_nat 0) with 1. rewrite Z.div_1_r, str_app_empty_r. reflexivity.
  - rewrite IH, Nat2Z.inj_succ, Z.pow_succ_r, Z.div_div by lia.
    rewrite str_app_assoc. reflexivity.
Qed.

Lemma dec_width_fields k a b c : 0 <= b < 100 -> 0 <= c < 100 ->
  dec_width (2 + (2 + k)) (a * 10000 + b * 100 + c) =
  dec_width k a ++ dec_width 2 b ++ dec_width 2 c.
Proof.
  intros Hb Hc.
  rewrite (dec_width_split (2 + k) 2), (dec_width_split k 2).
  change (10 ^ Z.of_nat 2) with 100.
  replace ((a * 10000 + b * 100 + c) / 100) with (a * 100 + b)
    by (apply Z.div_unique with c; lia).
  replace ((a * 100 + b) / 100) with a
    by (apply Z.div_unique with b; lia).
  rewrite <- (dec_width_add 2 b a), <- (dec_width_add 2 c (a * 100 + b)).
  change (10 ^ Z.of_nat 2) with 100.
  replace (c + (a * 100 + b) * 100) with (a * 10000 + b * 100 + c) by ring.
  replace (b + a * 100) with (a * 100 + b) by ring.
  rewrite str_app_assoc. reflexivity.
Qed.

Lemma strftime_compact_name t : valid_datetime t ->
  "darkrp_jobs_" ++ strftime_compact t ++ ".lua" = saved_file_name t.
Proof.
  intros (Hy & Hm & Hd & Hh & Hmi & Hs). unfold saved_file_name, strftime_compact.
  change (dec_width 8 (year t * 10000 + month t * 100 + day t))
    with (dec_width (2 + (2 + 4)) (year t * 10000 + month t * 100 + day t)).
  change (dec_width 6 (hour t * 10000 + minute t * 100 + second t))
    with (dec_width (2 + (2 + 2)) (hour t * 10000 + minute t * 100 + second t)).
  rewrite !dec_width_fields by lia.
  rewrite !str_app_assoc. reflexivity.
Qed.

Lemma save_jobs_keeps_jobs w : jobs (snd (save_jobs w)) = jobs w.
Proof.
  destruct (jobs w) as [|j js] eqn:Hj.
  - unfold save_jobs. rewrite bind_get_jobs, Hj. cbn. exact Hj.
  - destruct (save_jobs_nonempty w j js Hj) as (_ & _ & _ & H & _). congruence.
Qed.

(** C7: when the session holds at least one job record, saving returns
    normally and creates the file darkrp_jobs_<YYYYMMDD>_<HHMMSS>.lua named
    after the clock at the first [datetime.now()] call; it holds the two-line
    header with the DD.MM.YYYY HH:MM:SS time of the second call and an empty
    line, then each record's code followed by a blank line, in session order.
    No other file is touched. *)
Theorem save_jobs_writes_file w :
  jobs w <> [] -> valid_datetime (clock w (ticks w)) ->
  fst (save_jobs w) = Ret tt /\
  fs (snd (save_jobs w)) (saved_file_name (clock w (ticks w))) =
    Some (saved_header (clock w (S (ticks w))) ++ body_text (jobs w)) /\
  (forall n, n <> saved_file_name (clock w (ticks w)) ->
             fs (snd (save_jobs w)) n = fs w n).
Proof.
  intros Hne Hv. destruct (jobs w) as [|j js] eqn:Hj; [contradiction|].
  rewrite <- Hj. rewrite <- (strftime_compact_name _ Hv).
  destruct (save_jobs_nonempty w j js Hj) as (H1 & H2 & H3 & _).
  repeat split; assumption.
Qed.

Lemma save_jobs_writes_file_witness :
  let w := mkworld [] [] (fun _ => None) fixed_clock 0
                   [mkjob "TEAM_A" "A" "a"; mkjob "TEAM_B" "B" "b"] in
  jobs w <> [] /\ valid_datetime (clock w (ticks w)) /\
  fs (snd (save_jobs w)) (saved_file_name (clock w (ticks w))) =
    Some (saved_header (clock w (S (ticks w))) ++ body_text (jobs w)).
Proof.
  cbv zeta. split; [discriminate|]. split.
  - unfold valid_datetime. cbn. lia.
  - apply (save_jobs_writes_file
             (mkworld [] [] (fun _ => None) fixed_clock 0
                      [mkjob "TEAM_A" "A" "a"; mkjob "TEAM_B" "B" "b"]));
      [discriminate | unfold valid_datetime; cbn; lia].
Defined.

(** C8: on an empty session [save_jobs] returns normally, prints
    "No jobs to save!" and changes nothing else: no file is opened or
    written, the clock is not read. *)
Theorem save_jobs_empty_noop w :
  jobs w = [] ->
  save_jobs w = (Ret tt, set_stdout (stdout w ++ ["No jobs to save!"])%list w).
Proof.
  intro Hj. unfold save_jobs. rewrite bind_get_jobs, Hj. reflexivity.
Qed.

Lemma save_jobs_empty_noop_witness :
  let w := start_world ["1"] fixed_clock in
  jobs w = [] /\
  save_jobs w = (Ret tt, set_stdout (stdout w ++ ["No jobs to save!"])%list w).
Proof.
  cbv zeta. split; [reflexivity|].
  apply (save_jobs_empty_noop (start_world ["1"] fixed_clock)). reflexivity.
Defined.

(** C9 (corrected).  A save never changes the session list, and an empty
    session writes no file.  Saving an unchanged non-empty session twice
    writes the same body (each record's code and a blank line, in session
    order) both times, each after a header carrying the time of its own
    call; the second file holds the second header.  The file name is the
    clock reading at second precision: when both calls read the same
    second ([n1 = n2]) the second save overwrites the first file and no
    other file is touched, so one file results; otherwise the first file
    keeps the first header and the body, and no file other than these two
    is touched. *)
Theorem save_jobs_twice w :
  let w1 := snd (save_jobs w) in
  let w2 := snd (save_jobs w1) in
  let n1 := save_target (clock w (ticks w)) in
  let n2 := save_target (clock w (S (S (ticks w)))) in
  jobs w1 = jobs w /\ jobs w2 = jobs w /\
  (jobs w = [] -> fs w1 = fs w /\ fs w2 = fs w) /\
  (jobs w <> [] ->
     fs w2 n2 = Some (saved_header (clock w (S (S (S (ticks w))))) ++ body_text (jobs w)) /\
     (n1 = n2 -> forall n, n <> n2 -> fs w2 n = fs w n) /\
     (n1 <> n2 ->
        fs w2 n1 = Some (saved_header (clock w (S (ticks w))) ++ body_text (jobs w)) /\
        forall n, n <> n1 -> n <> n2 -> fs w2 n = fs w n)).
Proof.
  cbv zeta.
  assert (K1 : jobs (snd (save_jobs w)) = jobs w) by apply save_jobs_keeps_jobs.
  assert (K2 : jobs (snd (save_jobs (snd (save_jobs w)))) = jobs w)
    by (rewrite save_jobs_keeps_jobs; exact K1).
  split; [exact K1|]. split; [exact K2|].
  destruct (jobs w) as [|j js] eqn:Hj.
  - split; [|intro Hne; contradiction].
    intros _.
    assert (E1 : fs (snd (save_jobs w)) = fs w)
      by (unfold save_jobs; rewrite bind_get_jobs, Hj; reflexivity).
    assert (E2 : fs (snd (save_jobs (snd (save_jobs w)))) = fs (snd (save_jobs w)))
      by (unfold save_jobs at 1; rewrite bind_get_jobs, K1; reflexivity).
    split; [exact E1 | rewrite E2; exact E1].
  - split; [discriminate|]. intros _.
    destruct (save_jobs_nonempty w j js Hj) as (_ & A2 & A3 & _ & A5 & A6).
    set (w1 := snd (save_jobs w)) in *.
    assert (Hj1 : jobs w1 = j :: js) by exact K1.
    destruct (save_jobs_nonempty w1 j js Hj1) as (_ & B2 & B3 & _).
    rewrite A5, A6 in B2, B3. unfold save_target.
    split; [rewrite B2, Hj1; reflexivity|]. split.
    + intros E n Hn. rewrite B3 by exact Hn. apply A3. rewrite E. exact Hn.
    + intros Hn12. split.
      * rewrite B3 by (intro E; apply Hn12; rewrite E; reflexivity).
        rewrite A2, Hj. reflexivity.
      * intros n Hn1 Hn2. rewrite B3 by exact Hn2. apply A3. exact Hn1.
Qed.

Lemma save_jobs_twice_witness :
  let w := mkworld [] [] (fun _ => None) (fun n => mkdt 2026 10 19 9 5 (Z.of_nat n)) 0
                   [mkjob "TEAM_A" "A" "a"] in
  jobs w <> [] /\
  save_target (clock w (ticks w)) <> save_target (clock w (S (S (ticks w)))) /\
  fs (snd (save_jobs (snd (save_jobs w)))) (save_target (clock w (ticks w))) =
    Some (saved_header (clock w (S (ticks w))) ++ body_text (jobs w)).
Proof.
  cbv zeta. split; [discriminate|]. split; [vm_compute; discriminate|].
  destruct (save_jobs_twice
              (mkworld [] [] (fun _ => None) (fun n => mkdt 2026 10 19 9 5 (Z.of_nat n)) 0
                       [mkjob "TEAM_A" "A" "a"])) as (_ & _ & _ & H).
  destruct (H ltac:(discriminate)) as (_ & _ & H3).
  apply H3. vm_compute. discriminate.
Defined.

(** C9, refuted: when both calls fall in the same second, the two saves
    of a one-record session compute the same file name, and the second
    save overwrites the file of the first: only one file results. *)
Lemma save_jobs_twice_same_second :
  save_target (clock one_job_world 0) = save_target (clock one_job_world 2) /\
  fs (snd (save_jobs (snd (save_jobs one_job_world)))) "darkrp_jobs_20261019_090507.lua" =
    Some (saved_header (fixed_clock 3) ++ body_text (jobs one_job_world)) /\
  fs (snd (save_jobs (snd (save_jobs one_job_world)))) "darkrp_jobs_20261019_090508.lua" =
    None.
Proof. vm_compute. repeat split. Qed.

(** ** Invariants of whole runs *)

Create HintDb pres.

Section Preserves.
Context {R : world -> world -> Prop} `{WorldPreorder R}.

Lemma pres_ret {A} (a : A) : preserves R (ret a).
Proof. intros w r w' E. injection E as _ <-. apply wp_refl. Qed.

Lemma pres_raise {A} (e : pyexn) : preserves R (@raise A e).
Proof. intros w r w' E. injection E as _ <-. apply wp_refl. Qed.

Lemma pres_bind {A B} (m : M A) (k : A -> M B) :
  preserves R m -> (forall a, preserves R (k a)) -> preserves R (bind m k).
Proof.
  intros Hm Hk w r w' E. unfold bind in E.
  destruct (m w) as [[a|e] w1] eqn:Em.
  - eapply wp_trans; [eapply Hm; exact Em | eapply Hk; exact E].
  - injection E as _ <-. eapply Hm. exact Em.
Qed.

Lemma pres_get_jobs : preserves R get_jobs.
Proof. intros w r w' E. injection E as _ <-. apply wp_refl. Qed.

Lemma pres_int_m v : preserves R (int_m v).
Proof.
  destruct v as [s|]; cbn [int_m]; [destruct (py_int s)|];
    first [apply pres_ret | apply pres_raise].
Qed.

Lemma pres_lower_m v : preserves R (lower_m v).
Proof. destruct v; cbn; first [apply pres_ret | apply pres_raise]. Qed.

Lemma pres_upper_m v : preserves R (upper_m v).
Proof. destruct v; cbn; first [apply pres_ret | apply pres_raise]. Qed.

Lemma pres_replace_m c r v : preserves R (replace_m c r v).
Proof. destruct v; cbn; first [apply pres_ret | apply pres_raise]. Qed.

Lemma pres_for_each {A} (xs : list A) (body : A -> M unit) :
  (forall x, preserves R (body x)) -> preserves R (for_each xs body).
Proof.
  intro Hb. induction xs as [|x xs IH]; cbn [for_each];
    [apply pres_ret | apply pres_bind; auto].
Qed.

Lemma pres_loop_fuel {T A} (body : T -> M (T + A)) :
  (forall s, preserves R (body s)) -> forall f s, preserves R (loop_fuel f body s).
Proof.
  intros Hb f. induction f as [|f IH]; intros s; cbn [loop_fuel]; [apply pres_raise|].
  intros w r w' E. destruct (body s w) as [[[s'|a]|e] w1] eqn:Eb.
  - eapply wp_trans; [eapply Hb; exact Eb | eapply IH; exact E].
  - injection E as _ <-. eapply Hb. exact Eb.
  - injection E as _ <-. eapply Hb. exact Eb.
Qed.

Lemma pres_while_true {T A} (body : T -> M (T + A)) :
  (forall s, preserves R (body s)) -> forall s, preserves R (while_true body s).
Proof. intros Hb s w r w' E. eapply pres_loop_fuel; [exact Hb | exact E]. Qed.

End Preserves.

#[export] Hint Resolve pres_ret pres_raise pres_get_jobs pres_int_m pres_lower_m
  pres_upper_m pres_replace_m rp_input rp_print : pres.

(** Walk the structure of a computation down to its primitive steps. *)
Ltac pres :=
  repeat (cbv beta zeta;
          first [ solve [eauto with pres]
                | apply pres_bind; intros
                | apply pres_for_each; intros
                | apply pres_while_true; intros
                | match goal with
                  | |- preserves _ (if ?b then _ else _) => destruct b
                  | |- preserves _ (match ?x with _ => _ end) => destruct x
                  end ]).

Section ReadPrintRuns.
Context {R : world -> world -> Prop} `{WorldPreorder R} `{ReadPrint R}.

Lemma pres_get_user_input p d r : preserves R (get_user_input p d r).
Proof. unfold get_user_input, get_user_input_body. pres. Qed.

Lemma pres_get_validated_int p lo hi d : preserves R (get_validated_int p lo hi d).
Proof.
  unfold get_validated_int, get_validated_int_body. pres; apply pres_get_user_input.
Qed.

Local Hint Resolve pres_get_user_input pres_get_validated_int : pres.

Lemma pres_get_color_input : preserves R get_color_input.
Proof. unfold get_color_input. pres. Qed.

Lemma pres_get_models_input : preserves R get_models_input.
Proof. unfold get_models_input, models_loop, collect_body. pres. Qed.

Lemma pres_get_weapons_input : preserves R get_weapons_input.
Proof. unfold get_weapons_input, weapons_loop, collect_body. pres. Qed.

Lemma pres_get_spawn_settings : preserves R get_spawn_settings.
Proof. unfold get_spawn_settings. pres. Qed.

Local Hint Resolve pres_get_color_input pres_get_models_input pres_get_weapons_input
  pres_get_spawn_settings : pres.

Lemma pres_create_job :
  (forall j, preserves R (append_job j)) -> preserves R create_job.
Proof. intro Ha. unfold create_job. pres. Qed.

Lemma pres_save_jobs :
  preserves R now -> (forall n, preserves R (open_w n)) ->
  (forall n s, preserves R (fwrite n s)) -> preserves R save_jobs.
Proof. intros Hn Ho Hw. unfold save_jobs. pres. Qed.

Lemma pres_show_menu :
  preserves R create_job -> preserves R save_jobs -> preserves R show_menu.
Proof. intros Hc Hs. unfold show_menu, show_menu_body. pres. Qed.

Lemma pres_main :
  preserves R create_job -> preserves R save_jobs -> preserves R main.
Proof.
  intros Hc Hs. pose proof (pres_show_menu Hc Hs).
  unfold main. pres.
Qed.

End ReadPrintRuns.

#[export] Hint Resolve pres_get_user_input pres_get_validated_int pres_get_color_input
  pres_get_models_input pres_get_weapons_input pres_get_spawn_settings : pres.

#[export] Instance stdin_le_preorder : WorldPreorder stdin_le.
Proof. split; unfold stdin_le; intros; lia. Qed.

#[export] Instance stdin_le_read_print : ReadPrint stdin_le.
Proof.
  split; unfold preserves, stdin_le.
  - intros w r w' E. unfold input in E. destruct (stdin w) as [|l rest] eqn:Hw.
    + injection E as _ <-. rewrite Hw. lia.
    + injection E as _ <-. cbn. lia.
  - intros s w r w' E. injection E as _ <-. cbn. lia.
Qed.

#[export] Instance stdin_suffix_read_print : ReadPrint stdin_suffix.
Proof.
  split; unfold preserves, stdin_suffix.
  - intros w r w' E. unfold input in E. destruct (stdin w) as [|l rest] eqn:Hw.
    + injection E as _ <-. exists []. cbn. rewrite ?Hw. reflexivity.
    + injection E as _ <-. exists [l]. cbn. rewrite ?Hw. reflexivity.
  - intros s w r w' E. injection E as _ <-. exists []. reflexivity.
Qed.

#[export] Instance same_jobs_preorder : WorldPreorder same_jobs.
Proof. split; unfold same_jobs; congruence. Qed.

#[export] Instance same_jobs_read_print : ReadPrint same_jobs.
Proof.
  split; unfold preserves, same_jobs.
  - intros w r w' E. unfold input in E. destruct (stdin w);
      injection E as _ <-; reflexivity.
  - intros s w r w' E. injection E as _ <-. reflexivity.
Qed.

Lemma option_string_dec (a b : option string) : {a = b} + {a <> b}.
Proof. decide equality. apply string_dec. Qed.

#[export] Instance evolves_preorder : WorldPreorder evolves.
Proof.
  split; unfold evolves, stdin_suffix, jobs_grow, writes_saves.
  - intro w. split; [exists []; reflexivity|].
    split; [exists []; rewrite app_nil_r; reflexivity|].
    intros n Hn. contradiction.
  - intros w1 w2 w3 ((p1 & S12) & (l1 & J12) & F12) ((p2 & S23) & (l2 & J23) & F23).
    split; [exists (p1 ++ p2)%list; rewrite S12, S23, app_assoc; reflexivity|]. split.
    + exists (l1 ++ l2)%list. rewrite J23, J12, app_assoc. reflexivity.
    + intros n Hn. destruct (option_string_dec (fs w2 n) (fs w1 n)) as [E|E].
      * apply F23. congruence.
      * apply F12. exact E.
Qed.

#[export] Instance evolves_read_print : ReadPrint evolves.
Proof.
  split; unfold preserves, evolves, jobs_grow, writes_saves.
  - intros w r w' E. split; [eapply rp_input; exact E|].
    unfold input in E. destruct (stdin w); injection E as _ <-;
      (split; [exists []; rewrite app_nil_r; reflexivity | intros n Hn; contradiction]).
  - intros s w r w' E. split; [eapply rp_print; exact E|].
    injection E as _ <-.
    split; [exists []; rewrite app_nil_r; reflexivity | intros n Hn; contradiction].
Qed.

#[export] Hint Resolve stdin_le_preorder stdin_le_read_print stdin_suffix_read_print same_jobs_preorder
  same_jobs_read_print evolves_preorder evolves_read_print : pres.

Lemma evolves_append_job j : preserves evolves (append_job j).
Proof.
  intros w r w' E. injection E as _ <-. unfold evolves, stdin_suffix, jobs_grow, writes_saves.
  cbn. split; [exists []; reflexivity|]. split; [exists [j]; reflexivity | intros n Hn; contradiction].
Qed.

Lemma stdin_le_save_jobs : preserves stdin_le save_jobs.
Proof.
  apply pres_save_jobs.
  - intros w r w' E. injection E as _ <-. unfold stdin_le. cbn. lia.
  - intros n w r w' E. injection E as _ <-. unfold stdin_le. cbn. lia.
  - intros n s w r w' E. injection E as _ <-. unfold stdin_le. cbn. lia.
Qed.

#[export] Instance same_stdin_preorder : WorldPreorder same_stdin.
Proof. split; unfold same_stdin; congruence. Qed.

#[export] Hint Resolve same_stdin_preorder : pres.

Lemma save_jobs_stdin w : stdin (snd (save_jobs w)) = stdin w.
Proof.
  assert (P : preserves same_stdin save_jobs).
  { assert (Hp : forall s, preserves same_stdin (print s))
      by (intros s w0 r w' E; injection E as _ <-; reflexivity).
    assert (Hn : preserves same_stdin now)
      by (intros w0 r w' E; injection E as _ <-; reflexivity).
    assert (Ho : forall n, preserves same_stdin (open_w n))
      by (intros n w0 r w' E; injection E as _ <-; reflexivity).
    assert (Hw : forall n s, preserves same_stdin (fwrite n s))
      by (intros n s w0 r w' E; injection E as _ <-; reflexivity).
    unfold save_jobs. pres. }
  apply (P w (fst (save_jobs w))). destruct (save_jobs w); reflexivity.
Qed.

Lemma evolves_save_jobs : preserves evolves save_jobs.
Proof.
  intros w r w' E.
  assert (Hw' : w' = snd (save_jobs w)) by (rewrite E; reflexivity). subst w'.
  split; [exists []; rewrite save_jobs_stdin; reflexivity|].
  split.
  - exists []. rewrite app_nil_r. apply save_jobs_keeps_jobs.
  - intros n Hn. destruct (jobs w) as [|j js] eqn:Hj.
    + exfalso. apply Hn. unfold save_jobs. rewrite bind_get_jobs, Hj. reflexivity.
    + destruct (save_jobs_nonempty w j js Hj) as (_ & _ & H3 & _).
      exists (clock w (ticks w)). unfold save_target.
      destruct (string_dec n ("darkrp_jobs_" ++ strftime_compact (clock w (ticks w)) ++ ".lua"))
        as [->|Hne]; [reflexivity|].
      exfalso. apply Hn. apply H3. exact Hne.
Qed.

Lemma evolves_create_job : preserves evolves create_job.
Proof. apply pres_create_job, evolves_append_job. Qed.

Lemma strict_bind_l {A B} (m : M A) (k : A -> M B) :
  preserves stdin_le m -> (forall a, strict_ret (k a)) -> strict_ret (bind m k).
Proof.
  intros Hm Hk w b w' E. apply bind_inv in E. destruct E as (a & w1 & E1 & E2).
  apply Hm in E1. apply Hk in E2. unfold stdin_le in E1. lia.
Qed.

Lemma strict_bind_r {A B} (m : M A) (k : A -> M B) :
  strict_ret m -> (forall a, preserves stdin_le (k a)) -> strict_ret (bind m k).
Proof.
  intros Hm Hk w b w' E. apply bind_inv in E. destruct E as (a & w1 & E1 & E2).
  apply Hm in E1. apply Hk in E2. unfold stdin_le in E2. lia.
Qed.

Lemma show_menu_body_reads s w r w' :
  show_menu_body s w = (Ret r, w') -> (length (stdin w') < length (stdin w))%nat.
Proof.
  revert w r w'. change (strict_ret (show_menu_body s)). unfold show_menu_body.
  do 8 (apply strict_bind_l; [apply rp_print | intros []]).
  apply strict_bind_r; [intros w a w'; apply get_user_input_reads|].
  pose proof (pres_create_job (R := stdin_le)
                (fun j w r w' E => ltac:(injection E as _ <-; unfold stdin_le; cbn; lia))).
  pose proof stdin_le_save_jobs.
  intros choice. pres.
Qed.

Lemma show_menu_unfold w :
  show_menu w =
  match show_menu_body tt w with
  | (Ret (inl _), w') => show_menu w'
  | (Ret (inr a), w') => (Ret a, w')
  | (Raise e, w') => (Raise e, w')
  end.
Proof.
  unfold show_menu at 1. rewrite while_true_unfold by apply show_menu_body_reads.
  destruct (show_menu_body tt w) as [[[[]|[]]|e] w']; reflexivity.
Qed.

Lemma show_menu_body_inr s w x w' :
  show_menu_body s w = (Ret (inr x), w') ->
  exists pre, stdout w' = (pre ++ ["Goodbye!"])%list.
Proof.
  intro E. unfold show_menu_body in E. inv_binds E.
  destruct (opt_eqb _ "1").
  { inv_binds E. cbv [ret] in E. congruence. }
  destruct (opt_eqb _ "2").
  { inv_binds E. destruct v8; inv_binds E; cbv [ret] in E; congruence. }
  destruct (opt_eqb _ "3").
  { inv_binds E. cbv [ret] in E. congruence. }
  destruct (opt_eqb _ "4").
  - inv_binds E. cbv [ret] in E. injection E as _ <-.
    cbv [print] in Hm10. injection Hm10 as _ <-. eexists. reflexivity.
  - inv_binds E. cbv [ret] in E. congruence.
Qed.

(** [show_menu] returns normally only through option 4 ("Exit"): the last
    line it printed is then "Goodbye!". *)
Theorem show_menu_returns_after_goodbye (w w' : world) :
  show_menu w = (Ret tt, w') -> exists pre, stdout w' = (pre ++ ["Goodbye!"])%list.
Proof.
  remember (length (stdin w)) as n eqn:Hn. revert w Hn.
  induction n as [n IH] using (well_founded_induction lt_wf). intros w Hn E.
  rewrite show_menu_unfold in E.
  destruct (show_menu_body tt w) as [[[[]|[]]|e] w1] eqn:Eb; [| |discriminate E].
  - apply show_menu_body_reads in Eb. eapply IH; [| reflexivity | exact E]. lia.
  - injection E as <-. eapply show_menu_body_inr. exact Eb.
Qed.

Lemma show_menu_returns_after_goodbye_witness :
  show_menu (start_world ["2"; "9"; "4"] fixed_clock) =
    (Ret tt, snd (show_menu (start_world ["2"; "9"; "4"] fixed_clock))) /\
  exists pre, stdout (snd (show_menu (start_world ["2"; "9"; "4"] fixed_clock))) =
              (pre ++ ["Goodbye!"])%list.
Proof.
  split; [vm_compute; reflexivity|].
  apply (show_menu_returns_after_goodbye (start_world ["2"; "9"; "4"] fixed_clock)).
  vm_compute. reflexivity.
Defined.

Lemma bind_assoc {A B C} (m : M A) (k1 : A -> M B) (k2 : B -> M C) w :
  bind (bind m k1) k2 w = bind m (fun a => bind (k1 a) k2) w.
Proof. unfold bind. destruct (m w) as [[a|e] w1]; reflexivity. Qed.

Lemma bind_lower_m {B} s (k : string -> M B) w :
  bind (lower_m (Some s)) k w = k (lower s) w.
Proof. reflexivity. Qed.

(** Answer a prompt that has a default from the next line of input. *)
Ltac read_goal :=
  match goal with
  | |- context [bind (get_user_input ?p (Some ?d) ?r) ?k ?w] =>
      lazymatch eval cbn in (stdin w) with
      | ?l :: ?rest =>
          rewrite (bind_ret_l _ k w _ _ (get_user_input_default p d r w l rest eq_refl));
          cbv beta
      end
  end.

(** Settle a condition that no longer depends on a variable. *)
Ltac closed_if :=
  match goal with
  | |- context [if ?b then _ else _] =>
      let v := eval vm_compute in b in
      lazymatch v with
      | true => change b with true
      | false => change b with false
      end;
      cbv iota
  end.

Lemma for_each_numbered js :
  forall i w,
  for_each (enumerate i js)
    (fun '(i, job) => print (py_str_int i ++ ". " ++ team_name job ++ " - " ++ job_name job)) w =
  (Ret tt, set_stdout (stdout w ++ numbered i js)%list w).
Proof.
  induction js as [|j js IH]; intros i w.
  - cbn. rewrite app_nil_r. destruct w; reflexivity.
  - cbn [enumerate for_each]. rewrite bind_print. cbv beta. rewrite IH.
    cbn. rewrite <- app_assoc. reflexivity.
Qed.

(** A menu round up to the choice: the menu lines, then one line read. *)
Ltac menu_prefix Hin :=
  unfold show_menu_body; rewrite ?bind_print; cbv beta;
  let inp := fresh in
  match goal with
  | w : world |- _ => destruct w as [inp ? ? ? ? ?]; cbn in Hin; subst inp
  end;
  read_goal.

(** On a choice other than 1 to 4 (a blank line counts as 1), a menu round
    prints the menu and "Invalid input!", consumes that one line and starts
    the next round with nothing else changed. *)
Theorem show_menu_invalid_choice (w : world) (c : string) (rest : list string) :
  stdin w = c :: rest ->
  is_empty (strip c) = false -> ~ In (strip c) ["1"; "2"; "3"; "4"] ->
  show_menu w =
  show_menu (set_stdout (stdout w ++ menu_lines ++ ["Invalid input!"])%list
               (set_stdin rest w)).
Proof.
  intros Hin He Hc. rewrite show_menu_unfold.
  menu_prefix Hin. rewrite He. cbv iota. cbn [opt_eqb].
  assert (Hne : forall x, In x ["1"; "2"; "3"; "4"] -> (strip c =? x)%string = false)
    by (intros x Hx; apply String.eqb_neq; intro E; apply Hc; rewrite E; exact Hx).
  rewrite !Hne by (cbn; tauto). cbv iota.
  rewrite bind_print. unfold ret. cbv beta iota.
  f_equal. cbn. rewrite <- !app_assoc. reflexivity.
Qed.

Lemma show_menu_invalid_choice_witness :
  stdin (start_world ["5"; "4"] fixed_clock) = "5" :: ["4"] /\
  is_empty (strip "5") = false /\ ~ In (strip "5") ["1"; "2"; "3"; "4"] /\
  show_menu (start_world ["5"; "4"] fixed_clock) =
  show_menu (set_stdout (stdout (start_world ["5"; "4"] fixed_clock) ++
                         menu_lines ++ ["Invalid input!"])%list
               (set_stdin ["4"] (start_world ["5"; "4"] fixed_clock))).
Proof.
  split; [reflexivity|]. split; [reflexivity|].
  assert (Hn : ~ In (strip "5") ["1"; "2"; "3"; "4"]) by (vm_compute; intuition discriminate).
  split; [exact Hn|].
  apply (show_menu_invalid_choice (start_world ["5"; "4"] fixed_clock) "5" ["4"]
           eq_refl eq_refl Hn).
Defined.

(** Option 2 of the menu prints the menu, then "No jobs created!" for an
    empty session and otherwise a header and one line "i. TEAM - Name" per
    job, numbered from 1 in session order; it consumes that one line and
    changes nothing else. *)
Theorem show_menu_list_jobs (w : world) (c : string) (rest : list string) :
  stdin w = c :: rest -> strip c = "2" ->
  show_menu w =
  show_menu (set_stdout (stdout w ++ menu_lines ++ job_listing (jobs w))%list
               (set_stdin rest w)).
Proof.
  intros Hin Hc. rewrite show_menu_unfold.
  menu_prefix Hin. rewrite Hc. repeat closed_if.
  rewrite bind_get_jobs. cbn [jobs set_stdin set_stdout].
  destruct jobs0 as [|j js].
  - rewrite bind_print. unfold ret. cbv beta iota.
    f_equal. cbn. rewrite <- !app_assoc. reflexivity.
  - rewrite !bind_print. cbv beta.
    rewrite (bind_ret_l _ _ _ _ _ (for_each_numbered _ _ _)).
    unfold ret. cbv beta iota.
    f_equal. cbn. rewrite <- !app_assoc. reflexivity.
Qed.

Lemma show_menu_list_jobs_witness :
  let w := mkworld ["2"; "4"] [] (fun _ => None) fixed_clock 0
                   [mkjob "TEAM_A" "A" "a"; mkjob "TEAM_B" "B" "b"] in
  stdin w = "2" :: ["4"] /\ strip "2" = "2" /\
  show_menu w =
  show_menu (set_stdout (stdout w ++ menu_lines ++ job_listing (jobs w))%list
               (set_stdin ["4"] w)).
Proof.
  cbv zeta. split; [reflexivity|]. split; [reflexivity|].
  apply (show_menu_list_jobs (mkworld ["2"; "4"] [] (fun _ => None) fixed_clock 0
                                      [mkjob "TEAM_A" "A" "a"; mkjob "TEAM_B" "B" "b"])
           "2" ["4"] eq_refl eq_refl).
Defined.

(** Option 4 on a non-empty session asks "Save jobs before exiting?"; an
    answer that is blank (default y) or [y] in any case saves the jobs, to
    the file named after the current time, then the menu returns normally
    with the two answers consumed. *)
Theorem show_menu_exit_saves (w : world) (c a : string) (rest : list string) :
  stdin w = c :: a :: rest -> strip c = "4" -> jobs w <> [] ->
  lower (if is_empty (strip a) then "y" else strip a) = "y" ->
  fst (show_menu w) = Ret tt /\
  stdin (snd (show_menu w)) = rest /\
  fs (snd (show_menu w)) (save_target (clock w (ticks w))) =
    Some (saved_header (clock w (S (ticks w))) ++ body_text (jobs w)).
Proof.
  intros Hin Hc Hne Ha. rewrite show_menu_unfold.
  menu_prefix Hin. rewrite Hc. repeat closed_if.
  rewrite bind_get_jobs. cbn [jobs set_stdin set_stdout].
  destruct jobs0 as [|j js]; [contradiction|]. cbv iota.
  rewrite bind_assoc. read_goal. rewrite bind_assoc, bind_lower_m.
  rewrite Ha. repeat closed_if.
  match goal with
  | |- context [bind save_jobs ?k ?W] =>
      destruct (save_jobs_nonempty W j js eq_refl) as (H1 & H2 & _);
      pose proof (save_jobs_stdin W) as H3;
      destruct (save_jobs W) as [r W2] eqn:Es
  end.
  cbn [fst snd] in H1, H2, H3. subst r.
  rewrite (bind_ret_l _ _ _ _ _ Es), bind_print. unfold ret. cbv beta iota.
  cbn [fst snd fs stdin set_stdout]. split; [reflexivity|]. split.
  - rewrite H3. reflexivity.
  - exact H2.
Qed.

Lemma show_menu_exit_saves_witness :
  let w := mkworld ["4"; blank] [] (fun _ => None) fixed_clock 0 [mkjob "TEAM_A" "A" "a"] in
  fst (show_menu w) = Ret tt /\
  fs (snd (show_menu w)) (save_target (clock w (ticks w))) =
    Some (saved_header (clock w (S (ticks w))) ++ body_text (jobs w)).
Proof.
  cbv zeta.
  destruct (show_menu_exit_saves
              (mkworld ["4"; blank] [] (fun _ => None) fixed_clock 0 [mkjob "TEAM_A" "A" "a"])
              "4" blank [] eq_refl eq_refl ltac:(discriminate) eq_refl) as (H1 & _ & H3).
  split; [exact H1 | exact H3].
Defined.

(** [main] never removes or changes a job already in the session (it only
    appends), only consumes standard input from its front (the input left
    is a suffix of the input given), and the only files whose content
    it creates or changes are [darkrp_jobs_<YYYYMMDD>_<HHMMSS>.lua] files;
    this holds for every run, including those that end in an exception. *)
Theorem main_appends_and_writes_only_saves (w : world) :
  (exists pre, stdin w = (pre ++ stdin (snd (main w)))%list) /\
  (exists l, jobs (snd (main w)) = (jobs w ++ l)%list) /\
  (forall n, fs (snd (main w)) n <> fs w n -> exists t, n = save_target t).
Proof.
  exact (pres_main evolves_create_job evolves_save_jobs w (fst (main w)) (snd (main w))
           (surjective_pairing (main w))).
Qed.

Lemma upper_char_idem c : upper_char (upper_char c) = upper_char c.
Proof. destruct c as [[] [] [] [] [] [] [] []]; reflexivity. Qed.

Lemma upper_idem s : upper (upper s) = upper s.
Proof.
  unfold upper. induction s as [|c s IH]; cbn; [reflexivity|].
  rewrite upper_char_idem, IH. reflexivity.
Qed.

(** A step of a successful run that leaves [self.jobs] alone. *)
Ltac same_jobs_steps :=
  repeat match goal with
  | Hm : ?m ?w1 = (Ret _, ?w2) |- _ =>
      let J := fresh "J" in
      assert (J : same_jobs w1 w2)
        by (refine ((_ : preserves same_jobs m) w1 _ w2 Hm); pres);
      unfold same_jobs in J; clear Hm
  end.

Lemma create_job_appends (w w' : world) (c : string) :
  create_job w = (Ret c, w') ->
  exists tn jn, jobs w' = (jobs w ++ [mkjob tn jn c])%list /\ upper tn = tn /\
    exists rest, c = tn ++ " = DarkRP.createJob(" ++ dq ++ jn ++ dq ++ rest.
Proof.
  intro Hrun. unfold create_job in Hrun. inv_binds Hrun.
  unfold ret in Hrun. injection Hrun as <- <-.
  cbv [append_job] in Hm23. injection Hm23 as _ <-.
  destruct v2 as [tn|]; [|discriminate Hm3].
  cbv [upper_m ret] in Hm3. injection Hm3 as <- <-.
  same_jobs_steps.
  exists (upper tn), (fmt_opt v4). split; [|split].
  - cbn [jobs set_jobs]. f_equal. congruence.
  - apply upper_idem.
  - eexists. reflexivity.
Qed.

(** When [create_job] returns a block, it has appended exactly one record
    to [self.jobs], whose code is that block; the record's team name is in
    upper case and the block starts with [<team> = DarkRP.createJob("<job
    name>"]. *)
Theorem create_job_appends_record (w w' : world) (c : string) :
  create_job w = (Ret c, w') ->
  exists tn jn, jobs w' = (jobs w ++ [mkjob tn jn c])%list /\ upper tn = tn /\
    exists rest, c = tn ++ " = DarkRP.createJob(" ++ dq ++ jn ++ dq ++ rest.
Proof. apply create_job_appends. Qed.

Lemma create_job_appends_record_witness :
  exists tn jn,
    jobs (snd (create_job (start_world tester_input fixed_clock))) =
      (jobs (start_world tester_input fixed_clock) ++ [mkjob tn jn tester_block])%list /\
    upper tn = tn /\
    exists rest, tester_block = tn ++ " = DarkRP.createJob(" ++ dq ++ jn ++ dq ++ rest.
Proof.
  apply (create_job_appends_record (start_world tester_input fixed_clock)).
  vm_compute. reflexivity.
Defined.

Lemma bind_raise_inv {A B} (m : M A) (k : A -> M B) w e w' :
  bind m k w = (Raise e, w') ->
  m w = (Raise e, w') \/ exists a w1, m w = (Ret a, w1) /\ k a w1 = (Raise e, w').
Proof.
  unfold bind. destruct (m w) as [[a|e'] w1]; intro E;
    [right; eauto | left; injection E as <- <-; reflexivity].
Qed.

(** Follow a run that raised: each step either raised itself or returned
    without touching [self.jobs]. *)
Ltac raise_chain H :=
  cbv beta zeta in H;
  lazymatch type of H with
  | bind ?m ?k ?w = (Raise ?e, ?w') =>
      apply bind_raise_inv in H;
      let H1 := fresh "H" in let a := fresh "a" in let w1 := fresh "w" in
      destruct H as [H1 | (a & w1 & H1 & H)];
      [ first [ solve [cbv [append_job] in H1; discriminate H1]
              | let J := fresh "J" in
                assert (J : same_jobs w w')
                  by (refine ((_ : preserves same_jobs m) w _ w' H1); pres);
                unfold same_jobs in *; congruence ]
      | cbv beta zeta in H;
        first [ solve [cbv [ret] in H; discriminate H]
              | let J := fresh "J" in
                assert (J : same_jobs w w1)
                  by (refine ((_ : preserves same_jobs m) w _ w1 H1); pres);
                raise_chain H ] ]
  end.

(** A [create_job] that raises (end of input, or an answer [int()] cannot
    parse) leaves [self.jobs] as it was: no partial record is added. *)
Theorem create_job_raise_keeps_jobs (w w' : world) (e : pyexn) :
  create_job w = (Raise e, w') -> jobs w' = jobs w.
Proof. intro H. unfold create_job in H. raise_chain H. Qed.

Lemma create_job_raise_keeps_jobs_witness :
  jobs (snd (create_job (start_world ["TEAM_TEST"; "Tester"; blank; blank; blank; blank;
                                        blank; blank; blank; blank; "abc"] fixed_clock))) =
  jobs (start_world ["TEAM_TEST"; "Tester"; blank; blank; blank; blank;
                     blank; blank; blank; blank; "abc"] fixed_clock).
Proof.
  apply (create_job_raise_keeps_jobs _ _ ValueError).
  vm_compute. reflexivity.
Defined.

(** [get_user_input] returns the default when it has one and the answer is
    blank, [None] only when it has no default and the field is optional, and
    otherwise the stripped text of a non-blank line of input: it never
    returns a blank or unstripped answer. *)
Theorem get_user_input_result (p : string) (d : option string) (r : bool)
  (w w' : world) (v : option string) :
  get_user_input p d r w = (Ret v, w') ->
  (exists s, d = Some s /\ v = d) \/ (d = None /\ r = false /\ v = None) \/
  (exists l, In l (stdin w) /\ is_empty (strip l) = false /\ v = Some (strip l)).
Proof.
  remember (length (stdin w)) as n eqn:Hn. revert w Hn.
  induction n as [n IH] using (well_founded_induction lt_wf). intros w Hn E.
  unfold get_user_input in E.
  rewrite while_true_unfold in E by apply get_user_input_body_reads.
  unfold get_user_input_body, bind at 1, input in E.
  destruct (stdin w) as [|l rest] eqn:Hw; [discriminate E|].
  destruct (is_empty (strip l)) eqn:He; destruct d as [s|]; destruct r;
    cbn [andb orb negb is_some] in E; cbv [ret print bind] in E.
  - injection E as <- _. left. eauto.
  - injection E as <- _. left. eauto.
  - destruct (IH (length rest)) with (w := set_stdout (stdout (set_stdin rest w) ++
                                                       ["This field is required!"])
                                               (set_stdin rest w))
      as [H|[H|(l' & Hl & H)]]; [rewrite Hn; cbn; lia | reflexivity | exact E | | |].
    + left. exact H.
    + right. left. exact H.
    + right. right. exists l'. split; [right; exact Hl | exact H].
  - injection E as <- _. right. left. auto.
  - injection E as <- _. right. right. exists l. split; [left; reflexivity | auto].
  - injection E as <- _. right. right. exists l. split; [left; reflexivity | auto].
  - injection E as <- _. right. right. exists l. split; [left; reflexivity | auto].
  - injection E as <- _. right. right. exists l. split; [left; reflexivity | auto].
Qed.

Lemma get_user_input_result_witness :
  exists l, In l (stdin (start_world [blank; "  Alice "] fixed_clock)) /\
            is_empty (strip l) = false /\ Some "Alice" = Some (strip l).
Proof.
  destruct (get_user_input_result "Name" None true
              (start_world [blank; "  Alice "] fixed_clock)
              (snd (get_user_input "Name" None true (start_world [blank; "  Alice "] fixed_clock)))
              (Some "Alice") ltac:(vm_compute; reflexivity))
    as [(s & H & _)|[(_ & H & _)|H]]; [discriminate H | discriminate H | exact H].
Defined.



(** In [get_spawn_settings], a blank answer to the max-health prompt (its
    second line) makes the recorded max health equal to the recorded
    health, whatever health was entered: the default [str(health)] parses
    back to [health]. *)
Theorem get_spawn_settings_max_health_default (w w' : world) (h mh : string)
  (rest : list string) (s : spawn_settings) :
  stdin w = h :: mh :: rest -> is_empty (strip mh) = true ->
  get_spawn_settings w = (Ret s, w') -> max_health s = health s.
Proof.
  intros Hin Hmh Hrun.
  destruct w as [inp out f clk t js]. cbn in Hin. subst inp.
  unfold get_spawn_settings in Hrun. rewrite bind_print in Hrun. cbv beta in Hrun.
  read_step Hrun. int_step Hrun. read_step Hrun.
  rewrite Hmh in Hrun. cbv iota in Hrun.
  rewrite bind_int_m, py_int_str_int in Hrun. cbv beta iota in Hrun.
  inv_binds Hrun. unfold ret in Hrun. injection Hrun as <- _. reflexivity.
Qed.

Lemma get_spawn_settings_max_health_default_witness :
  max_health (mkspawn 150 150 0 0 200 400 200) = health (mkspawn 150 150 0 0 200 400 200).
Proof.
  apply (get_spawn_settings_max_health_default
           (start_world ["150"; blank; blank; blank; blank; blank; blank] fixed_clock)
           (snd (get_spawn_settings
                   (start_world ["150"; blank; blank; blank; blank; blank; blank] fixed_clock)))
           "150" blank [blank; blank; blank; blank; blank]
           (mkspawn 150 150 0 0 200 400 200) eq_refl eq_refl).
  vm_compute. reflexivity.
Defined.

(** [get_spawn_settings] does not validate: a non-blank health answer that
    [int()] cannot parse raises [ValueError] at once, after reading only that
    line, with no re-prompt. *)
Theorem get_spawn_settings_bad_health (w : world) (h : string) (rest : list string) :
  stdin w = h :: rest -> is_empty (strip h) = false -> py_int (strip h) = None ->
  fst (get_spawn_settings w) = Raise ValueError /\
  stdin (snd (get_spawn_settings w)) = rest.
Proof.
  intros Hin He Hp.
  destruct w as [inp out f clk t js]. cbn in Hin. subst inp.
  unfold get_spawn_settings. rewrite bind_print. cbv beta.
  read_goal. rewrite He. cbv iota. rewrite bind_int_m, Hp. split; reflexivity.
Qed.

Lemma get_spawn_settings_bad_health_witness :
  fst (get_spawn_settings (start_world ["lots"; "100"] fixed_clock)) = Raise ValueError /\
  stdin (snd (get_spawn_settings (start_world ["lots"; "100"] fixed_clock))) = ["100"].
Proof.
  apply (get_spawn_settings_bad_health (start_world ["lots"; "100"] fixed_clock)
           "lots" ["100"] eq_refl); vm_compute; reflexivity.
Defined.

(** On a non-empty session, the only line [save_jobs] prints is
    "\n✅ Jobs saved to: <file>", naming the very file it wrote. *)
Theorem save_jobs_reports_file (w : world) :
  jobs w <> [] ->
  stdout (snd (save_jobs w)) =
    app (stdout w) [nl ++ check_mark ++ " Jobs saved to: " ++ save_target (clock w (ticks w))] /\
  fs (snd (save_jobs w)) (save_target (clock w (ticks w))) <> None.
Proof.
  intro Hne. destruct (jobs w) as [|j js] eqn:Hj; [contradiction|].
  destruct (save_jobs_nonempty w j js Hj) as (_ & A2 & _).
  split; [|unfold save_target; rewrite A2; discriminate].
  unfold save_jobs.
  rewrite bind_get_jobs, Hj. cbv beta iota.
  rewrite bind_now. cbv beta zeta.
  set (fn := "darkrp_jobs_" ++ strftime_compact (clock w (ticks w)) ++ ".lua").
  rewrite bind_open_w. cbv beta.
  rewrite bind_fwrite. cbv beta.
  rewrite bind_now. cbv beta.
  rewrite bind_fwrite. cbv beta.
  cbn [fs set_fs set_ticks ticks clock]. rewrite !fs_update_eq.
  match goal with
  | |- context [bind (for_each ?l ?body) ?k (set_fs (fs_update fn ?c ?f) ?w0)] =>
      set (W := set_fs (fs_update fn c f) w0);
      destruct (for_each_writes fn l c W) as (H1 & _ & H3 & _);
        [unfold W; cbn [fs set_fs]; apply fs_update_eq|];
      destruct (for_each l body W) as [r w6] eqn:E
  end.
  cbn [fst snd] in H1, H3. subst r.
  rewrite (bind_ret_l _ _ _ _ _ E).
  unfold print. cbn [snd stdout set_stdout]. rewrite H3. reflexivity.
Qed.

Lemma save_jobs_reports_file_witness :
  stdout (snd (save_jobs one_job_world)) =
    app (stdout one_job_world) [nl ++ check_mark ++ " Jobs saved to: " ++
                                save_target (clock one_job_world (ticks one_job_world))] /\
  fs (snd (save_jobs one_job_world)) (save_target (clock one_job_world (ticks one_job_world)))
    <> None.
Proof. apply (save_jobs_reports_file one_job_world). discriminate. Defined.

(** [main] on a fresh generator: when the user accepts to create a job
    (blank or [y] in any case) and [create_job] returns a block, and then
    accepts to save it, [main] saves that single job, to the file named
    after the current time, and returns normally without entering the
    menu. *)
Theorem main_create_then_save (w w2 : world) (a s c : string)
  (rest rest2 : list string) :
  stdin w = a :: rest -> jobs w = [] ->
  lower (if is_empty (strip a) then "y" else strip a) = "y" ->
  create_job (set_stdin rest (set_stdout (app (stdout w) main_banner) w)) = (Ret c, w2) ->
  stdin w2 = s :: rest2 ->
  lower (if is_empty (strip s) then "y" else strip s) = "y" ->
  fst (main w) = Ret tt /\ stdin (snd (main w)) = rest2 /\
  (exists j, jobs (snd (main w)) = [j] /\ code j = c) /\
  fs (snd (main w)) (save_target (clock w2 (ticks w2))) =
    Some (saved_header (clock w2 (S (ticks w2))) ++ c ++ nl ++ nl).
Proof.
  intros Hin Hj Ha Hc Hs2 Hs.
  destruct (create_job_appends _ _ _ Hc) as (tn & jn & Hjobs & _).
  destruct w as [inp out f clk t js]. cbn in Hin, Hj, Hjobs. subst inp js.
  unfold main. rewrite !bind_print. cbv beta.
  read_goal. rewrite bind_lower_m, Ha. repeat closed_if.
  match goal with
  | |- context [bind create_job ?k ?W] =>
      replace W with (set_stdin rest (set_stdout (app out main_banner)
                                        (mkworld (a :: rest) out f clk t [])))
        by (cbn; rewrite <- app_assoc; reflexivity);
      rewrite (bind_ret_l _ _ _ _ _ Hc)
  end.
  rewrite !bind_print. cbv beta.
  match goal with
  | |- context [bind (get_user_input ?p (Some ?d) ?r) ?k ?W] =>
      rewrite (bind_ret_l _ k W _ _ (get_user_input_default p d r W s rest2 Hs2))
  end.
  cbv beta. rewrite bind_lower_m, Hs. repeat closed_if.
  match goal with
  | |- context [save_jobs ?W] =>
      assert (HjW : jobs W = [mkjob tn jn c]) by (cbn; exact Hjobs);
      destruct (save_jobs_nonempty W _ _ HjW) as (H1 & H2 & _);
      pose proof (save_jobs_keeps_jobs W) as H4;
      pose proof (save_jobs_stdin W) as H5
  end.
  split; [exact H1|]. split; [rewrite H5; reflexivity|]. split.
  - exists (mkjob tn jn c). rewrite H4. split; [exact HjW | reflexivity].
  - rewrite HjW in H2. cbn [body_text fold_right code] in H2.
    rewrite str_app_empty_r in H2. exact H2.
Qed.

Lemma main_create_then_save_witness :
  let w := start_world ("y" :: tester_input ++ ["y"]) fixed_clock in
  let w2 := snd (create_job (set_stdin (tester_input ++ ["y"])
                               (set_stdout (app (stdout w) main_banner) w))) in
  fst (main w) = Ret tt /\ stdin (snd (main w)) = [] /\
  (exists j, jobs (snd (main w)) = [j] /\ code j = tester_block) /\
  fs (snd (main w)) (save_target (clock w2 (ticks w2))) =
    Some (saved_header (clock w2 (S (ticks w2))) ++ tester_block ++ nl ++ nl).
Proof.
  intros w w2.
  apply (main_create_then_save w w2 "y" "y" tester_block (tester_input ++ ["y"]) []);
    vm_compute; reflexivity.
Defined.
